(** * decode_oracle_request.py: a shallow embedding and its properties

    The script fetches one Oracle request object through the [rooch]
    command-line client, parses the JSON it prints and writes a report.
    Python values are embedded as the inductive type [json], Python [str]
    as lists of Unicode code points, exceptions as an error monad and
    [print] as an output log threaded through the computation. *)

From Stdlib Require Import String Ascii ZArith List Bool Lia.
From Stdlib Require Import DecimalString Decimal.
Import ListNotations.

Local Open Scope Z_scope.

(** ** Python strings and bytes *)

(** A Python [str] is a sequence of code points; a [bytes] object is a
    sequence of integers in [0, 256). *)
Definition pystr := list Z.
Definition pybytes := list Z.

Definition ch (a : ascii) : Z := Z.of_N (N_of_ascii a).
Arguments ch a%_char.

(** [py "text"] is the Python literal ['text'] (ASCII only). *)
Definition py (s : string) : pystr := map ch (list_ascii_of_string s).
Arguments py s%_string.

Fixpoint pystr_eqb (a b : pystr) : bool :=
  match a, b with
  | [], [] => true
  | x :: a', y :: b' => (x =? y) && pystr_eqb a' b'
  | _, _ => false
  end.

(** [s.startswith(p)] *)
Fixpoint startswith (p s : pystr) : bool :=
  match p, s with
  | [], _ => true
  | x :: p', y :: s' => (x =? y) && startswith p' s'
  | _ :: _, [] => false
  end.

(** [p in s] for two strings: substring test. *)
Fixpoint is_substring (p s : pystr) : bool :=
  startswith p s ||
  match s with
  | [] => false
  | _ :: s' => is_substring p s'
  end.

(** [s.split('.')]: never the empty list; the empty string gives one empty
    segment. *)
Fixpoint split_dot (s : pystr) : list pystr :=
  match s with
  | [] => [[]]
  | c :: r =>
      if c =? ch "." then [] :: split_dot r
      else match split_dot r with
           | seg :: segs => (c :: seg) :: segs
           | [] => [[c]]
           end
  end.

(** ** Exceptions *)

Inductive exn : Type :=
| SystemExit (code : Z)
| KeyError
| IndexError
| TypeError
| AttributeError
| ValueError
| UnicodeDecodeError
| JSONDecodeError
| RecursionError
| OverflowError
| OSError
| CalledProcessError (returncode : Z) (stderr : pystr).

(** [except Exception] catches everything but [SystemExit]. *)
Definition is_Exception (e : exn) : bool :=
  match e with SystemExit _ => false | _ => true end.

(** [except (KeyError, IndexError)] *)
Definition is_KeyError_or_IndexError (e : exn) : bool :=
  match e with KeyError | IndexError => true | _ => false end.

(** [except json.JSONDecodeError] *)
Definition is_JSONDecodeError (e : exn) : bool :=
  match e with JSONDecodeError => true | _ => false end.

(** [except subprocess.CalledProcessError] *)
Definition is_CalledProcessError (e : exn) : bool :=
  match e with CalledProcessError _ _ => true | _ => false end.

(** Results of pure Python code: a value or a raised exception. *)
Inductive res (A : Type) : Type :=
| Ok (a : A)
| Raise (e : exn).
Arguments Ok {A} a.
Arguments Raise {A} e.

Definition rbind {A B} (m : res A) (k : A -> res B) : res B :=
  match m with
  | Ok a => k a
  | Raise e => Raise e
  end.

(** [try: m  except <sel> as e: h e] *)
Definition try_except {A} (m : res A) (sel : exn -> bool) (h : exn -> res A)
  : res A :=
  match m with
  | Ok a => Ok a
  | Raise e => if sel e then h e else Raise e
  end.

Declare Scope res_scope.
Delimit Scope res_scope with res.
Notation "x <- m ;; k" := (rbind m (fun x => k))
  (at level 61, m at next level, right associativity) : res_scope.
Notation "' pat <- m ;; k" := (rbind m (fun x => match x with pat => k end))
  (at level 61, pat pattern, m at next level, right associativity) : res_scope.

(** ** Hexadecimal text and UTF-8 *)

Definition in_range (lo c hi : Z) : bool := (lo <=? c) && (c <=? hi).

(** Value of one hexadecimal digit, either case. *)
Definition hex_val (c : Z) : option Z :=
  if in_range (ch "0") c (ch "9") then Some (c - ch "0")
  else if in_range (ch "a") c (ch "f") then Some (c - ch "a" + 10)
  else if in_range (ch "A") c (ch "F") then Some (c - ch "A" + 10)
  else None.

(** ASCII white space as [bytes.fromhex] skips it: space, and tab to
    carriage return. *)
Definition is_space (c : Z) : bool := (c =? 32) || in_range 9 c 13.

(** [bytes.fromhex(s)]: white space is skipped in front of each pair of
    digits; [None] stands for the [ValueError]. *)
Fixpoint bytes_fromhex (s : pystr) : option pybytes :=
  match s with
  | [] => Some []
  | c :: r =>
      if is_space c then bytes_fromhex r
      else
        match hex_val c, r with
        | Some hi, d :: r' =>
            match hex_val d with
            | Some lo => option_map (cons (16 * hi + lo)) (bytes_fromhex r')
            | None => None
            end
        | _, _ => None
        end
  end.

Definition is_cont (b : Z) : bool := in_range 128 b 191.

Definition is_surrogate (c : Z) : bool := in_range 55296 c 57343.

(** [b.decode('utf-8')], strict: shortest forms only, no surrogates,
    nothing above U+10FFFF; [None] stands for the [UnicodeDecodeError]. *)
Fixpoint utf8_decode (bs : pybytes) : option pystr :=
  match bs with
  | [] => Some []
  | b0 :: r0 =>
      if b0 <? 128 then option_map (cons b0) (utf8_decode r0)
      else if in_range 194 b0 223 then
        match r0 with
        | b1 :: r1 =>
            if is_cont b1
            then option_map (cons ((b0 - 192) * 64 + (b1 - 128)))
                            (utf8_decode r1)
            else None
        | _ => None
        end
      else if in_range 224 b0 239 then
        match r0 with
        | b1 :: b2 :: r2 =>
            let c := (b0 - 224) * 4096 + (b1 - 128) * 64 + (b2 - 128) in
            if is_cont b1 && is_cont b2 && (2048 <=? c) && negb (is_surrogate c)
            then option_map (cons c) (utf8_decode r2)
            else None
        | _ => None
        end
      else if in_range 240 b0 244 then
        match r0 with
        | b1 :: b2 :: b3 :: r3 =>
            let c := (b0 - 240) * 262144 + (b1 - 128) * 4096
                     + (b2 - 128) * 64 + (b3 - 128) in
            if is_cont b1 && is_cont b2 && is_cont b3
               && in_range 65536 c 1114111
            then option_map (cons c) (utf8_decode r3)
            else None
        | _ => None
        end
      else None
  end.

(** The encoder is the reference the decoder is compared with:
    [t.encode('utf-8')] for a text [t] of Unicode scalar values. *)
Definition utf8_encode_cp (c : Z) : pybytes :=
  if c <? 128 then [c]
  else if c <? 2048 then [192 + c / 64; 128 + c mod 64]
  else if c <? 65536 then
    [224 + c / 4096; 128 + (c / 64) mod 64; 128 + c mod 64]
  else
    [240 + c / 262144; 128 + (c / 4096) mod 64; 128 + (c / 64) mod 64;
     128 + c mod 64].

Definition utf8_encode (t : pystr) : pybytes := flat_map utf8_encode_cp t.

(** A code point that UTF-8 can carry. *)
Definition scalar_value (c : Z) : Prop :=
  0 <= c <= 1114111 /\ ~ (55296 <= c <= 57343).

Definition utf8_text (t : pystr) : Prop := Forall scalar_value t.

Definition is_byte (b : Z) : Prop := 0 <= b <= 255.

Definition hex_digit (upper : bool) (n : Z) : Z :=
  if n <? 10 then ch "0" + n
  else (if upper then ch "A" else ch "a") + (n - 10).

(** [b.hex()], and its upper-case variant. *)
Definition hexlify (upper : bool) (bs : pybytes) : pystr :=
  flat_map (fun b => [hex_digit upper (b / 16); hex_digit upper (b mod 16)]) bs.

(** ** Python values

    What [json.loads] produces: [None], [bool], [int], [float], [str],
    [list] and [dict].  A float is kept as the lexeme it was read from; a
    [dict] is an association list in insertion order. *)

#[warnings="-register-all"]
Inductive json : Type :=
| JNull
| JBool (b : bool)
| JInt (n : Z)
| JFloat (lexeme : pystr)
| JStr (s : pystr)
| JList (items : list json)
| JDict (entries : list (pystr * json)).

Definition pydict := list (pystr * json).

Fixpoint dict_get (k : pystr) (d : pydict) : option json :=
  match d with
  | [] => None
  | (k', v) :: d' => if pystr_eqb k' k then Some v else dict_get k d'
  end.

(** [d[k] = v]: an existing key keeps its place. *)
Fixpoint dict_set (k : pystr) (v : json) (d : pydict) : pydict :=
  match d with
  | [] => [(k, v)]
  | (k', v') :: d' =>
      if pystr_eqb k' k then (k', v) :: d' else (k', v') :: dict_set k v d'
  end.

Definition of_option {A} (e : exn) (o : option A) : res A :=
  match o with
  | Some a => Ok a
  | None => Raise e
  end.

Definition isinstance_dict (v : json) : bool :=
  match v with JDict _ => true | _ => false end.

Definition isinstance_list (v : json) : bool :=
  match v with JList _ => true | _ => false end.

(** [k in v] for a string [k]: key of a dict, element of a list,
    substring of a string. *)
Definition py_contains (k : pystr) (v : json) : res bool :=
  match v with
  | JDict d => Ok (match dict_get k d with Some _ => true | None => false end)
  | JList l =>
      Ok (existsb (fun x => match x with
                            | JStr s => pystr_eqb s k
                            | _ => false
                            end) l)
  | JStr s => Ok (is_substring k s)
  | _ => Raise TypeError
  end.

(** [v[k]] for a string [k]. *)
Definition py_getitem (v : json) (k : pystr) : res json :=
  match v with
  | JDict d => of_option KeyError (dict_get k d)
  | _ => Raise TypeError
  end.

(** [v[0]] *)
Definition py_getitem0 (v : json) : res json :=
  match v with
  | JList (x :: _) => Ok x
  | JList [] => Raise IndexError
  | JStr (c :: _) => Ok (JStr [c])
  | JStr [] => Raise IndexError
  | JDict _ => Raise KeyError
  | _ => Raise TypeError
  end.

(** [v.get(k, dflt)] *)
Definition py_get (v : json) (k : pystr) (dflt : json) : res json :=
  match v with
  | JDict d => Ok (match dict_get k d with Some x => x | None => dflt end)
  | _ => Raise AttributeError
  end.

(** [len(v)] *)
Definition py_len (v : json) : res Z :=
  match v with
  | JList l => Ok (Z.of_nat (length l))
  | JStr s => Ok (Z.of_nat (length s))
  | JDict d => Ok (Z.of_nat (length d))
  | _ => Raise TypeError
  end.

(** [a and b] as a condition: [b] is evaluated only when [a] holds. *)
Definition py_and (a b : res bool) : res bool :=
  (x <- a ;; if x then b else Ok false)%res.

(** [a or b] as a condition. *)
Definition py_or (a b : res bool) : res bool :=
  (x <- a ;; if x then Ok true else b)%res.

(** ** decode_hex (lines 10-17) *)

Definition hex_placeholder : pystr := py "[Unable to decode hex]".

(** Lines 12-13: [if s.startswith('0x'): s = s[2:]] *)
Definition strip_0x (s : pystr) : pystr :=
  if startswith (py "0x") s then skipn 2 s else s.

Definition decode_hex (hex_string : json) : res pystr :=
  match hex_string with
  | JStr s =>
      let s := strip_0x s in
      try_except
        (b <- of_option ValueError (bytes_fromhex s) ;;
         of_option UnicodeDecodeError (utf8_decode b))%res
        is_Exception
        (fun _ => Ok hex_placeholder)
  | _ => Raise AttributeError
  end.

(** ** extract_nested_value (lines 73-81) *)

Fixpoint extract_loop (current : json) (keys : list pystr) : res json :=
  match keys with
  | [] => Ok current
  | key :: keys' =>
      (found <- py_and (Ok (isinstance_dict current))
                       (py_contains key current) ;;
       if found
       then (next <- py_getitem current key ;; extract_loop next keys')
       else Ok JNull)%res
  end.

Definition extract_nested_value (data : json) (path : pystr) : res json :=
  extract_loop data (split_dot path).

(** The reading of a path that also indexes sequences, as the caller on
    line 192 expects it: a segment that is a decimal number selects an
    element of a list. *)
Definition is_digit (c : Z) : bool := in_range 48 c 57.

Definition digits_value (ds : pystr) : Z :=
  fold_left (fun a d => 10 * a + (d - 48)) ds 0.

Definition segment_index (key : pystr) : option nat :=
  match key with
  | [] => None
  | _ => if forallb is_digit key then Some (Z.to_nat (digits_value key))
         else None
  end.

Fixpoint resolve_path (current : json) (keys : list pystr) : option json :=
  match keys with
  | [] => Some current
  | key :: keys' =>
      match current with
      | JDict d =>
          match dict_get key d with
          | Some next => resolve_path next keys'
          | None => None
          end
      | JList l =>
          match segment_index key with
          | Some i =>
              match nth_error l i with
              | Some next => resolve_path next keys'
              | None => None
              end
          | None => None
          end
      | _ => None
      end
  end.

(** The ways a text fails to be hexadecimal UTF-8: a character that is
    neither a digit nor skipped white space, an odd number of digits, or
    bytes that are the encoding of no text. *)
Inductive malformed_hex_utf8 (body : pystr) : Prop :=
| Bad_digit (c : Z) :
    In c body -> hex_val c = None -> is_space c = false ->
    malformed_hex_utf8 body
| Odd_length :
    Forall (fun c => hex_val c <> None) body ->
    Nat.odd (List.length body) = true ->
    malformed_hex_utf8 body
| Bad_utf8 (bs : pybytes) :
    bytes_fromhex body = Some bs ->
    (forall t, utf8_text t -> utf8_encode t <> bs) ->
    malformed_hex_utf8 body.

(** What a path denotes in a structure of mappings: [stored_at data keys v]
    when every key is present along the way and [v] is what the last one
    maps to; [missing_at data keys] when some key is missing or is looked
    up in something that is no mapping. *)
Inductive stored_at : json -> list pystr -> json -> Prop :=
| Stored_here (v : json) : stored_at v [] v
| Stored_under (d : pydict) (key : pystr) (keys : list pystr) (next v : json) :
    dict_get key d = Some next -> stored_at next keys v ->
    stored_at (JDict d) (key :: keys) v.

Inductive missing_at : json -> list pystr -> Prop :=
| Missing_key (d : pydict) (key : pystr) (keys : list pystr) :
    dict_get key d = None -> missing_at (JDict d) (key :: keys)
| Not_a_mapping (v : json) (key : pystr) (keys : list pystr) :
    isinstance_dict v = false -> missing_at v (key :: keys)
| Missing_below (d : pydict) (key : pystr) (keys : list pystr) (next : json) :
    dict_get key d = Some next -> missing_at next keys ->
    missing_at (JDict d) (key :: keys).

(** ** Text helpers *)

Definition DQUOTE : Z := 34.
Definition BACKSLASH : Z := 92.
Definition nl : pystr := [10].

(** [pyq "text"]: the literal with every apostrophe standing for a double
    quote, to write JSON texts. *)
Definition pyq (s : string) : pystr :=
  map (fun c => if c =? 39 then DQUOTE else c) (py s).
Arguments pyq s%_string.

(** [sep.join(parts)] *)
Fixpoint join (sep : pystr) (parts : list pystr) : pystr :=
  match parts with
  | [] => []
  | [p] => p
  | p :: ps => p ++ sep ++ join sep ps
  end.

(** [str(n)] for an [int]. *)
Definition str_of_Z (n : Z) : pystr :=
  py (NilZero.string_of_int (Z.to_int n)).

(** ** json.loads

    The scanner of the standard [json] module: white space is space, tab,
    line feed and carriage return; the literals [NaN], [Infinity] and
    [-Infinity] are accepted; strings are scanned in strict mode.  Limits
    of the interpreter (recursion depth, memory) are not part of the
    model. *)

Definition is_json_ws (c : Z) : bool :=
  (c =? 32) || (c =? 9) || (c =? 10) || (c =? 13).

Fixpoint skip_ws (s : pystr) : pystr :=
  match s with
  | c :: r => if is_json_ws c then skip_ws r else s
  | [] => []
  end.

Fixpoint span_digits (s : pystr) : pystr * pystr :=
  match s with
  | c :: r =>
      if is_digit c
      then let (ds, rest) := span_digits r in (c :: ds, rest)
      else ([], s)
  | [] => ([], [])
  end.

Definition hex4_val (a b c d : Z) : option Z :=
  match hex_val a, hex_val b, hex_val c, hex_val d with
  | Some x, Some y, Some z, Some w => Some (((x * 16 + y) * 16 + z) * 16 + w)
  | _, _, _, _ => None
  end.

(** The character an escape letter stands for. *)
Definition unescape (e : Z) : option Z :=
  if e =? DQUOTE then Some DQUOTE
  else if e =? BACKSLASH then Some BACKSLASH
  else if e =? ch "/" then Some (ch "/")
  else if e =? ch "b" then Some 8
  else if e =? ch "f" then Some 12
  else if e =? ch "n" then Some 10
  else if e =? ch "r" then Some 13
  else if e =? ch "t" then Some 9
  else None.

Definition is_high_surrogate (c : Z) : bool := in_range 55296 c 56319.
Definition is_low_surrogate (c : Z) : bool := in_range 56320 c 57343.

Definition join_surrogates (hi lo : Z) : Z :=
  65536 + (hi - 55296) * 1024 + (lo - 56320).

(** [scanstring]: the input starts right after the opening quote; the
    result is the string and the input after the closing quote.  [None]
    stands for the [JSONDecodeError]. *)
Fixpoint scanstring (s : pystr) : option (pystr * pystr) :=
  let more (c : Z) (o : option (pystr * pystr)) :=
    match o with
    | Some (str, rest) => Some (c :: str, rest)
    | None => None
    end in
  match s with
  | [] => None
  | c :: r =>
      if c =? DQUOTE then Some ([], r)
      else if c =? BACKSLASH then
        match r with
        | [] => None
        | e :: r1 =>
            if e =? ch "u" then
              match r1 with
              | h1 :: h2 :: h3 :: h4 :: r5 =>
                  match hex4_val h1 h2 h3 h4 with
                  | None => None
                  | Some u =>
                      if is_high_surrogate u then
                        match r5 with
                        | b :: x :: l1 :: l2 :: l3 :: l4 :: r11 =>
                            if (b =? BACKSLASH) && (x =? ch "u") then
                              match hex4_val l1 l2 l3 l4 with
                              | None => None
                              | Some u2 =>
                                  if is_low_surrogate u2
                                  then more (join_surrogates u u2)
                                            (scanstring r11)
                                  else more u (scanstring r5)
                              end
                            else more u (scanstring r5)
                        | _ => more u (scanstring r5)
                        end
                      else more u (scanstring r5)
                  end
              | _ => None
              end
            else
              match unescape e with
              | Some c' => more c' (scanstring r1)
              | None => None
              end
        end
      else if c <? 32 then None
      else more c (scanstring r)
  end.

(** [_match_number]: an integer part, an optional fraction of at least
    one digit, an optional exponent of at least one digit.  Without
    fraction and exponent the result is an [int], else a [float]. *)
Definition match_number (s : pystr) : option (json * pystr) :=
  let '(sign, s1) :=
    match s with
    | c :: r => if c =? ch "-" then ([c], r) else ([], s)
    | [] => ([], s)
    end in
  match s1 with
  | [] => None
  | c :: r =>
      let int_part :=
        if in_range (ch "1") c (ch "9")
        then let (ds, rest) := span_digits r in Some (c :: ds, rest)
        else if c =? ch "0" then Some ([c], r)
        else None in
      match int_part with
      | None => None
      | Some (ds, s2) =>
          let '(frac, s3) :=
            match s2 with
            | p :: d :: r3 =>
                if (p =? ch ".") && is_digit d
                then let (fs, rest) := span_digits r3 in (p :: d :: fs, rest)
                else ([], s2)
            | _ => ([], s2)
            end in
          let '(expo, s4) :=
            match s3 with
            | e :: r4 =>
                if (e =? ch "e") || (e =? ch "E") then
                  let '(sg, r5) :=
                    match r4 with
                    | g :: r' =>
                        if (g =? ch "-") || (g =? ch "+")
                        then ([g], r') else ([], r4)
                    | [] => ([], r4)
                    end in
                  match span_digits r5 with
                  | ([], _) => ([], s3)
                  | (es, rest) => (e :: sg ++ es, rest)
                  end
                else ([], s3)
            | [] => ([], s3)
            end in
          match frac, expo with
          | [], [] =>
              let n := digits_value ds in
              Some (JInt (match sign with [] => n | _ => - n end), s4)
          | _, _ => Some (JFloat (sign ++ ds ++ frac ++ expo), s4)
          end
      end
  end.

(** [scan_once], with the loops of [_parse_object] and [_parse_array].
    The fuel bounds the number of nested calls; [json_loads] gives more
    than any input can use. *)
Fixpoint scan_once (fuel : nat) (s : pystr) : res (json * pystr) :=
  match fuel with
  | O => Raise RecursionError
  | S fuel' =>
      match s with
      | [] => Raise JSONDecodeError
      | c :: r =>
          if c =? DQUOTE then
            match scanstring r with
            | Some (str, rest) => Ok (JStr str, rest)
            | None => Raise JSONDecodeError
            end
          else if c =? ch "{" then
            match skip_ws r with
            | c' :: r' =>
                if c' =? ch "}" then Ok (JDict [], r')
                else parse_members fuel' (c' :: r') []
            | [] => Raise JSONDecodeError
            end
          else if c =? ch "[" then
            match skip_ws r with
            | c' :: r' =>
                if c' =? ch "]" then Ok (JList [], r')
                else parse_items fuel' (c' :: r') []
            | [] => Raise JSONDecodeError
            end
          else if startswith (py "null") s then Ok (JNull, skipn 4 s)
          else if startswith (py "true") s then Ok (JBool true, skipn 4 s)
          else if startswith (py "false") s then Ok (JBool false, skipn 5 s)
          else if startswith (py "NaN") s then Ok (JFloat (py "NaN"), skipn 3 s)
          else if startswith (py "Infinity") s
               then Ok (JFloat (py "Infinity"), skipn 8 s)
          else if startswith (py "-Infinity") s
               then Ok (JFloat (py "-Infinity"), skipn 9 s)
          else of_option JSONDecodeError (match_number s)
      end
  end

with parse_members (fuel : nat) (s : pystr) (acc : pydict)
  : res (json * pystr) :=
  match fuel with
  | O => Raise RecursionError
  | S fuel' =>
      match s with
      | [] => Raise JSONDecodeError
      | q :: r =>
          if q =? DQUOTE then
            match scanstring r with
            | None => Raise JSONDecodeError
            | Some (key, r1) =>
                match skip_ws r1 with
                | [] => Raise JSONDecodeError
                | colon :: r2 =>
                    if colon =? ch ":" then
                      match scan_once fuel' (skip_ws r2) with
                      | Raise e => Raise e
                      | Ok (v, r3) =>
                          let acc' := dict_set key v acc in
                          match skip_ws r3 with
                          | [] => Raise JSONDecodeError
                          | d :: r4 =>
                              if d =? ch "}" then Ok (JDict acc', r4)
                              else if d =? ch ","
                              then parse_members fuel' (skip_ws r4) acc'
                              else Raise JSONDecodeError
                          end
                      end
                    else Raise JSONDecodeError
                end
            end
          else Raise JSONDecodeError
      end
  end

with parse_items (fuel : nat) (s : pystr) (acc : list json)
  : res (json * pystr) :=
  match fuel with
  | O => Raise RecursionError
  | S fuel' =>
      match scan_once fuel' s with
      | Raise e => Raise e
      | Ok (v, r1) =>
          match skip_ws r1 with
          | [] => Raise JSONDecodeError
          | d :: r2 =>
              if d =? ch "]" then Ok (JList (acc ++ [v]), r2)
              else if d =? ch ","
              then parse_items fuel' (skip_ws r2) (acc ++ [v])
              else Raise JSONDecodeError
          end
      end
  end.

(** [json.loads(x)]: a [str] is required; a leading byte order mark is
    refused; nothing but white space may follow the value. *)
Definition json_loads (x : json) : res json :=
  match x with
  | JStr s =>
      if startswith [65279] s then Raise JSONDecodeError
      else
        ('(obj, rest) <- scan_once (2 * length s + 2) (skip_ws s) ;;
         match skip_ws rest with
         | [] => Ok obj
         | _ :: _ => Raise JSONDecodeError
         end)%res
  | _ => Raise TypeError
  end.

(** ** The interpreter and its libraries

    What the script takes from its platform and this development does not
    define: the text of floating-point numbers, [repr] of a string,
    Unicode case mapping, [int()] of a string or a float, the local-time
    calendar and the text of an exception.  A float is identified by the
    lexeme [json.loads] read it from. *)
Record PyRuntime : Type := {
  (** [repr(x)] of the float read from a lexeme *)
  float_repr : pystr -> pystr;
  (** the text [json.dumps] writes for it: its [repr], or [NaN],
      [Infinity], [-Infinity] *)
  float_json : pystr -> pystr;
  (** [bool(x)]: whether it differs from zero *)
  float_truth : pystr -> bool;
  (** [repr(s)] of a string *)
  str_repr : pystr -> pystr;
  (** [s.upper()] and [s.capitalize()] outside ASCII *)
  unicode_upper : pystr -> pystr;
  unicode_capitalize : pystr -> pystr;
  (** [int(s)] of a string and of a float *)
  int_of_str : pystr -> res Z;
  int_of_float : pystr -> res Z;
  (** [datetime.fromtimestamp(n / 1000).strftime('%Y-%m-%d %H:%M:%S')]
      for an integer [n] of milliseconds *)
  local_strftime : Z -> res pystr;
  (** [str(e)] of an exception *)
  exn_str : exn -> pystr
}.

Section Runtime.

Variable rt : PyRuntime.

(** [bool(v)] *)
Definition py_truthy (v : json) : bool :=
  match v with
  | JNull => false
  | JBool b => b
  | JInt n => negb (n =? 0)
  | JFloat x => float_truth rt x
  | JStr s => match s with [] => false | _ => true end
  | JList l => match l with [] => false | _ => true end
  | JDict d => match d with [] => false | _ => true end
  end.

(** [repr(v)] *)
Fixpoint py_repr (v : json) : pystr :=
  match v with
  | JNull => py "None"
  | JBool true => py "True"
  | JBool false => py "False"
  | JInt n => str_of_Z n
  | JFloat x => float_repr rt x
  | JStr s => str_repr rt s
  | JList l => py "[" ++ join (py ", ") (map py_repr l) ++ py "]"
  | JDict d =>
      py "{"
      ++ join (py ", ")
           (map (fun kv => match kv with
                           | (k, x) => str_repr rt k ++ py ": " ++ py_repr x
                           end) d)
      ++ py "}"
  end.

(** [str(v)], which is what an f-string and [print] write. *)
Definition py_str (v : json) : pystr :=
  match v with
  | JStr s => s
  | _ => py_repr v
  end.

(** [int(v)] *)
Definition py_int (v : json) : res Z :=
  match v with
  | JInt n => Ok n
  | JBool b => Ok (if b then 1 else 0)
  | JStr s => int_of_str rt s
  | JFloat x => int_of_float rt x
  | _ => Raise TypeError
  end.

Definition is_ascii (c : Z) : bool := in_range 0 c 127.
Definition ascii_upper (c : Z) : Z := if in_range 97 c 122 then c - 32 else c.
Definition ascii_lower (c : Z) : Z := if in_range 65 c 90 then c + 32 else c.

(** [s.upper()] *)
Definition str_upper (s : pystr) : pystr :=
  if forallb is_ascii s then map ascii_upper s else unicode_upper rt s.

(** [s.capitalize()]: first character upper case, the rest lower. *)
Definition str_capitalize (s : pystr) : pystr :=
  if forallb is_ascii s
  then match s with
       | [] => []
       | c :: r => ascii_upper c :: map ascii_lower r
       end
  else unicode_capitalize rt s.

(** [role.upper()] and [role.capitalize()]: methods of [str] only. *)
Definition py_upper (v : json) : res pystr :=
  match v with
  | JStr s => Ok (str_upper s)
  | _ => Raise AttributeError
  end.

Definition py_capitalize (v : json) : res pystr :=
  match v with
  | JStr s => Ok (str_capitalize s)
  | _ => Raise AttributeError
  end.

(** [v == 'text'] *)
Definition py_eq_str (v : json) (s : pystr) : bool :=
  match v with
  | JStr s' => pystr_eqb s' s
  | _ => false
  end.

(** ** format_timestamp (lines 19-22) *)

Definition format_timestamp (timestamp_ms : json) : res pystr :=
  (n <- py_int timestamp_ms ;; local_strftime rt n)%res.

(** ** json.dumps(v, indent=2) *)

Definition hex_lower (n : Z) : Z := hex_digit false n.

(** ['\\u{0:04x}'.format(n)] *)
Definition u_escape (n : Z) : pystr :=
  [BACKSLASH; ch "u"; hex_lower (Z.shiftr n 12 mod 16);
   hex_lower (Z.shiftr n 8 mod 16); hex_lower (Z.shiftr n 4 mod 16);
   hex_lower (n mod 16)].

(** One character of [encode_basestring_ascii]: everything outside the
    printable ASCII range, the quote and the backslash are escaped. *)
Definition escape_char (c : Z) : pystr :=
  if c =? DQUOTE then [BACKSLASH; DQUOTE]
  else if c =? BACKSLASH then [BACKSLASH; BACKSLASH]
  else if c =? 10 then [BACKSLASH; ch "n"]
  else if c =? 13 then [BACKSLASH; ch "r"]
  else if c =? 9 then [BACKSLASH; ch "t"]
  else if c =? 12 then [BACKSLASH; ch "f"]
  else if c =? 8 then [BACKSLASH; ch "b"]
  else if in_range 32 c 126 then [c]
  else if c <? 65536 then u_escape c
  else
    let n := c - 65536 in
    u_escape (Z.lor 55296 (Z.land (Z.shiftr n 10) 1023))
    ++ u_escape (Z.lor 56320 (Z.land n 1023)).

Definition encode_basestring_ascii (s : pystr) : pystr :=
  [DQUOTE] ++ flat_map escape_char s ++ [DQUOTE].

Definition newline_indent (level : nat) : pystr :=
  nl ++ concat (repeat (py "  ") level).

Fixpoint json_dumps_at (level : nat) (v : json) : pystr :=
  match v with
  | JNull => py "null"
  | JBool true => py "true"
  | JBool false => py "false"
  | JInt n => str_of_Z n
  | JFloat x => float_json rt x
  | JStr s => encode_basestring_ascii s
  | JList [] => py "[]"
  | JList l =>
      py "[" ++ newline_indent (S level)
      ++ join (py "," ++ newline_indent (S level))
              (map (json_dumps_at (S level)) l)
      ++ newline_indent level ++ py "]"
  | JDict [] => py "{}"
  | JDict d =>
      py "{" ++ newline_indent (S level)
      ++ join (py "," ++ newline_indent (S level))
              (map (fun kv => match kv with
                              | (k, x) =>
                                  encode_basestring_ascii k ++ py ": "
                                  ++ json_dumps_at (S level) x
                              end) d)
      ++ newline_indent level ++ py "}"
  end.

Definition json_dumps (v : json) : pystr := json_dumps_at 0 v.

(** ** process_request_body (lines 83-120) *)

(** [try] with two [except] clauses: the first that matches handles. *)
Definition try_except2 {A} (m : res A)
    (sel1 : exn -> bool) (h1 : exn -> res A)
    (sel2 : exn -> bool) (h2 : exn -> res A) : res A :=
  match m with
  | Ok a => Ok a
  | Raise e => if sel1 e then h1 e else if sel2 e then h2 e else Raise e
  end.

(** Lines 100-108: the loop over the messages. *)
Fixpoint messages_loop (msgs : list json) (result : pystr) : res pystr :=
  match msgs with
  | [] => Ok result
  | msg :: msgs' =>
      (role <- py_get msg (py "role") (JStr (py "unknown")) ;;
       content <- py_get msg (py "content") (JStr []) ;;
       formatted_role <- (if py_eq_str role (py "system")
                          then py_upper role else py_capitalize role) ;;
       messages_loop msgs'
         (result ++ py "[" ++ formatted_role ++ py "]" ++ nl
                 ++ py_str content ++ nl ++ nl))%res
  end.

Definition truncation_notice : pystr :=
  py "..." ++ nl ++ py "(Request body truncated for readability)".

Definition process_request_body (body : json) : res pystr :=
  try_except2
    (body_json <- json_loads body ;;
     chat <- py_and (py_contains (py "messages") body_json)
                    (m <- py_getitem body_json (py "messages") ;;
                     Ok (isinstance_list m)) ;;
     if chat then
       model <- py_get body_json (py "model") (JStr (py "Not specified")) ;;
       let result := py "Model: " ++ py_str model ++ nl in
       has_temperature <- py_contains (py "temperature") body_json ;;
       result <- (if has_temperature
                  then (t <- py_getitem body_json (py "temperature") ;;
                        Ok (result ++ py "Temperature: " ++ py_str t ++ nl))
                  else Ok result) ;;
       let result := result ++ nl ++ py "----- Messages -----" ++ nl ++ nl in
       msgs <- py_getitem body_json (py "messages") ;;
       match msgs with
       | JList l => messages_loop l result
       | _ => Raise TypeError
       end
     else Ok (json_dumps body_json))%res
    is_JSONDecodeError
    (fun _ =>
       match body with
       | JStr s =>
           let preview_length := Nat.min 200 (length s) in
           Ok (firstn preview_length s ++ truncation_notice)
       | _ => Raise TypeError
       end)
    is_Exception
    (fun e => Ok (py "Error processing request body: " ++ exn_str rt e)).

(** ** process_openai_response (lines 122-132) *)

Definition process_openai_response (response_json : json) : res json :=
  try_except
    (found <-
       py_and (py_contains (py "choices") response_json)
      (py_and (c <- py_getitem response_json (py "choices") ;;
               Ok (py_truthy c))
      (py_and (c <- py_getitem response_json (py "choices") ;;
               c0 <- py_getitem0 c ;;
               py_contains (py "message") c0)
              (c <- py_getitem response_json (py "choices") ;;
               c0 <- py_getitem0 c ;;
               m <- py_getitem c0 (py "message") ;;
               py_contains (py "content") m))) ;;
     if found then
       c <- py_getitem response_json (py "choices") ;;
       c0 <- py_getitem0 c ;;
       m <- py_getitem c0 (py "message") ;;
       py_getitem m (py "content")
     else Ok JNull)%res
    (fun _ => true)
    (fun _ => Ok JNull).

(** ** Printing

    A computation that prints: it takes the lines printed so far and
    returns them extended, with its value or the exception it raised. *)
Definition io (A : Type) : Type := list pystr -> res A * list pystr.

Definition io_ret {A} (a : A) : io A := fun out => (Ok a, out).

Definition io_bind {A B} (m : io A) (k : A -> io B) : io B :=
  fun out =>
    match m out with
    | (Ok a, out') => k a out'
    | (Raise e, out') => (Raise e, out')
    end.

Definition io_lift {A} (r : res A) : io A := fun out => (r, out).

(** [print(s)]: one entry of the log per call. *)
Definition print (s : pystr) : io unit := fun out => (Ok tt, out ++ [s]).

(** [sys.exit(code)] *)
Definition sys_exit {A} (code : Z) : io A := io_lift (Raise (SystemExit code)).

(** [try: m  except <sel> as e: h e] *)
Definition io_try {A} (m : io A) (sel : exn -> bool) (h : exn -> io A)
  : io A :=
  fun out =>
    match m out with
    | (Ok a, out') => (Ok a, out')
    | (Raise e, out') => if sel e then h e out' else (Raise e, out')
    end.

Definition io_try2 {A} (m : io A)
    (sel1 : exn -> bool) (h1 : exn -> io A)
    (sel2 : exn -> bool) (h2 : exn -> io A) : io A :=
  fun out =>
    match m out with
    | (Ok a, out') => (Ok a, out')
    | (Raise e, out') =>
        if sel1 e then h1 e out'
        else if sel2 e then h2 e out'
        else (Raise e, out')
    end.

(** [if c: m] *)
Definition io_when (c : bool) (m : io unit) : io unit :=
  if c then m else io_ret tt.

Declare Scope io_scope.
Delimit Scope io_scope with io.
Notation "x <- m ;; k" := (io_bind m (fun x => k))
  (at level 61, m at next level, right associativity) : io_scope.
Notation "m ;; k" := (io_bind m (fun _ => k))
  (at level 61, right associativity) : io_scope.

Definition banner (title : string) : pystr := nl ++ py title ++ nl.

(** ** analyze_oracle_request (lines 134-240) *)

(** Lines 155-160: [if key in value: print(f"{label}{value[key]}{suffix}")] *)
Definition print_field (value : json) (key : pystr) (label suffix : pystr)
  : io unit :=
  (present <- io_lift (py_contains key value) ;;
   io_when present
     (x <- io_lift (py_getitem value key) ;;
      print (label ++ py_str x ++ suffix)))%io.

(** Lines 163-186 *)
Definition report_http_request (value : json) : io unit :=
  (print (banner "===== HTTP Request =====") ;;
   params <- io_lift (extract_nested_value value (py "params.value")) ;;
   io_when (py_truthy params)
     (print_field params (py "url") (py "URL: ") [] ;;
      print_field params (py "method") (py "Method: ") [] ;;
      has_headers <- io_lift (py_contains (py "headers") params) ;;
      io_when has_headers
        (print (nl ++ py "Headers:") ;;
         io_try
           (h <- io_lift (py_getitem params (py "headers")) ;;
            headers_json <- io_lift (json_loads h) ;;
            if py_truthy headers_json
            then print (json_dumps headers_json)
            else print (py "No headers specified"))
           (fun _ => true)
           (fun _ =>
              h <- io_lift (py_getitem params (py "headers")) ;;
              print (py_str h))) ;;
      has_body <- io_lift (py_contains (py "body") params) ;;
      io_when has_body
        (print (nl ++ py "Request Body:") ;;
         b <- io_lift (py_getitem params (py "body")) ;;
         text <- io_lift (process_request_body b) ;;
         print text)))%io.

(** Lines 188-197 *)
Definition report_callback (value : json) : io unit :=
  (notify_vec <- io_lift (extract_nested_value value (py "notify.value.vec")) ;;
   io_when (py_truthy notify_vec)
     (io_try
        (hex_string <- io_lift (extract_nested_value notify_vec
                                  (py "value.0.0")) ;;
         io_when (py_truthy hex_string)
           (print (banner "===== Callback Details =====") ;;
            text <- io_lift (decode_hex hex_string) ;;
            print (py "Callback: " ++ text)))
        is_KeyError_or_IndexError
        (fun _ => io_ret tt)))%io.

(** Lines 215-233: a hex string was found. *)
Definition report_response_content (hex_string : json) : io unit :=
  (decoded <- io_lift (decode_hex hex_string) ;;
   print (nl ++ py "Response Content:") ;;
   io_try2
     (json_str_response <- io_lift (json_loads (JStr decoded)) ;;
      json_response <- io_lift (json_loads json_str_response) ;;
      print (json_dumps json_response) ;;
      ai_content <- io_lift (process_openai_response json_response) ;;
      io_when (py_truthy ai_content)
        (print (banner "===== AI Response Content =====") ;;
         print (py_str ai_content)))
     is_JSONDecodeError
     (fun _ => print decoded)
     is_Exception
     (fun e =>
        print (py "Error processing response: " ++ exn_str rt e) ;;
        print decoded))%io.

(** Lines 199-238 *)
Definition report_response (value : json) : io unit :=
  (print (banner "===== Response =====") ;;
   print_field value (py "response_status") (py "Status: ") [] ;;
   response_vec <- io_lift (extract_nested_value value
                              (py "response.value.vec")) ;;
   if py_truthy response_vec then
     io_try
       (outer <- io_lift
          (py_and (py_contains (py "value") response_vec)
          (py_and (v <- py_getitem response_vec (py "value") ;;
                   Ok (isinstance_list v))
                  (v <- py_getitem response_vec (py "value") ;;
                   n <- py_len v ;; Ok (0 <? n)))%res) ;;
        io_when outer
          (inner <- io_lift
             (py_and (v <- py_getitem response_vec (py "value") ;;
                      v0 <- py_getitem0 v ;; Ok (isinstance_list v0))
                     (v <- py_getitem response_vec (py "value") ;;
                      v0 <- py_getitem0 v ;;
                      n <- py_len v0 ;; Ok (0 <? n)))%res ;;
           io_when inner
             (hex_string <- io_lift
                (v <- py_getitem response_vec (py "value") ;;
                 v0 <- py_getitem0 v ;; py_getitem0 v0)%res ;;
              io_when (py_truthy hex_string)
                (report_response_content hex_string))))
       is_KeyError_or_IndexError
       (fun e =>
          print (py "Error extracting response: " ++ exn_str rt e) ;;
          print (py "Response structure: " ++ py_str response_vec))
   else print (nl ++ py "No response content available"))%io.

Definition analyze_oracle_request (data : json) : io unit :=
  (no_data <- io_lift
     (py_or (b <- py_contains (py "data") data ;; Ok (negb b))
            (d <- py_getitem data (py "data") ;; Ok (negb (py_truthy d))))%res ;;
   if no_data then
     print (py "Error: No object data found") ;;
     sys_exit 1
   else
     obj <- io_lift (d <- py_getitem data (py "data") ;; py_getitem0 d)%res ;;
     decoded_value <- io_lift (py_get obj (py "decoded_value") (JDict [])) ;;
     value <- io_lift (py_get decoded_value (py "value") (JDict [])) ;;
     print (banner "===== Oracle Request Object =====") ;;
     id <- io_lift (py_getitem obj (py "id")) ;;
     print (py "ID: " ++ py_str id) ;;
     object_type <- io_lift (py_getitem obj (py "object_type")) ;;
     print (py "Type: " ++ py_str object_type) ;;
     owner <- io_lift (py_getitem obj (py "owner")) ;;
     print (py "Owner: " ++ py_str owner) ;;
     created_at <- io_lift (py_getitem obj (py "created_at")) ;;
     created <- io_lift (format_timestamp created_at) ;;
     print (py "Created: " ++ created) ;;
     updated_at <- io_lift (py_getitem obj (py "updated_at")) ;;
     updated <- io_lift (format_timestamp updated_at) ;;
     print (py "Updated: " ++ updated) ;;
     print (banner "===== Request Details =====") ;;
     print_field value (py "amount") (py "Amount: ") (py " (Gas)") ;;
     print_field value (py "request_account") (py "Requester: ") [] ;;
     print_field value (py "oracle") (py "Oracle: ") [] ;;
     report_http_request value ;;
     report_callback value ;;
     report_response value ;;
     print (banner "===== End of Oracle Request Details ====="))%io.

(** ** The external command

    How [subprocess.run(..., check=True)] ends: the client ran and
    exited, or it could not be started. *)
Inductive process : Type :=
| Exited (returncode : Z) (stdout stderr : pystr)
| NotStarted.

Definition subprocess_run (p : process) : res pystr :=
  match p with
  | Exited rc out err =>
      if rc =? 0 then Ok out else Raise (CalledProcessError rc err)
  | NotStarted => Raise OSError
  end.

(** The two [except] clauses shared by both fetchers (lines 35-41 and
    65-71). *)
Definition fetch_handlers (m : io json) : io json :=
  io_try2 m
    is_CalledProcessError
    (fun e =>
       print (py "Error executing rooch command: " ++ exn_str rt e) ;;
       print (py "stderr: "
              ++ match e with CalledProcessError _ err => err | _ => [] end) ;;
       sys_exit 1)%io
    is_JSONDecodeError
    (fun e =>
       print (py "Error parsing response from rooch command: "
              ++ exn_str rt e) ;;
       sys_exit 1)%io.

(** ** fetch_object_by_id (lines 24-41) *)
Definition fetch_object_by_id (rooch : process) (object_id : pystr) : io json :=
  (print (py "Fetching object data for ID: " ++ object_id ++ py "...") ;;
   fetch_handlers
     (stdout <- io_lift (subprocess_run rooch) ;;
      io_lift (json_loads (JStr stdout))))%io.

(** ** fetch_latest_request (lines 43-71) *)
Definition fetch_latest_request (rooch : process) : io json :=
  (print (py "Fetching the latest Oracle request object...") ;;
   fetch_handlers
     (stdout <- io_lift (subprocess_run rooch) ;;
      data <- io_lift (json_loads (JStr stdout)) ;;
      found <- io_lift (py_get data (py "data") JNull) ;;
      if negb (py_truthy found) then
        print (py "No Oracle request objects found.") ;;
        sys_exit 1
      else io_ret data))%io.

(** ** main (lines 242-260)

    [object_id] is the optional positional argument, [rooch] what the
    external command does when it is run. *)
Definition main (object_id : option pystr) (rooch : process) : io unit :=
  io_try
    (data <- match object_id with
             | Some (c :: id) => fetch_object_by_id rooch (c :: id)
             | _ => fetch_latest_request rooch
             end ;;
     analyze_oracle_request data)%io
    is_Exception
    (fun e => print (py "Error: " ++ exn_str rt e) ;; sys_exit 1)%io.

(** The exit status of the process and what it printed. *)
Definition run (object_id : option pystr) (rooch : process)
  : Z * list pystr :=
  match main object_id rooch [] with
  | (Ok _, out) => (0, out)
  | (Raise (SystemExit code), out) => (code, out)
  | (Raise _, out) => (1, out)
  end.

End Runtime.

(** ** Specification vocabulary *)

(** A scanner step that either fails with a [JSONDecodeError] or returns
    a strictly shorter input. *)
Definition consumes (s : pystr) (r : res (json * pystr)) : Prop :=
  match r with
  | Ok (_, rest) => (length rest < length s)%nat
  | Raise e => e = JSONDecodeError
  end.

(** A platform to evaluate examples on: a float prints as its lexeme, a
    string is quoted with apostrophes, an exception prints as the name
    of its class, a timestamp as its number of milliseconds. *)
Definition exn_name (e : exn) : pystr :=
  match e with
  | SystemExit _ => py "SystemExit"
  | KeyError => py "KeyError"
  | IndexError => py "IndexError"
  | TypeError => py "TypeError"
  | AttributeError => py "AttributeError"
  | ValueError => py "ValueError"
  | UnicodeDecodeError => py "UnicodeDecodeError"
  | JSONDecodeError => py "JSONDecodeError"
  | RecursionError => py "RecursionError"
  | OverflowError => py "OverflowError"
  | OSError => py "OSError"
  | CalledProcessError _ _ => py "CalledProcessError"
  end.

Definition sample_runtime : PyRuntime := {|
  float_repr := fun x => x;
  float_json := fun x => x;
  float_truth := fun x => negb (forallb (fun c => (c =? ch "0") || (c =? ch ".")) x);
  str_repr := fun s => py "'" ++ s ++ py "'";
  unicode_upper := fun s => s;
  unicode_capitalize := fun s => s;
  int_of_str := fun s =>
    match s with
    | [] => Raise ValueError
    | _ => if forallb is_digit s then Ok (digits_value s) else Raise ValueError
    end;
  int_of_float := fun _ => Raise ValueError;
  local_strftime := fun n => Ok (str_of_Z n);
  exn_str := exn_name
|}.

(** The chat layout in the words of the specification: the model name,
    the temperature when there is one, a separator, and one block per
    message with its role and content. *)
Definition rendered_role (rt : PyRuntime) (d : pydict) : pystr :=
  match dict_get (py "role") d with
  | Some (JStr s) =>
      if pystr_eqb s (py "system") then py "SYSTEM" else str_capitalize rt s
  | _ => py "Unknown"
  end.

Definition rendered_message (rt : PyRuntime) (msg : json) : pystr :=
  match msg with
  | JDict d =>
      py "[" ++ rendered_role rt d ++ py "]" ++ nl
      ++ py_str rt (match dict_get (py "content") d with
                    | Some c => c
                    | None => JStr []
                    end)
      ++ nl ++ nl
  | _ => []
  end.

Definition rendered_chat (rt : PyRuntime) (d : pydict) (msgs : list json)
  : pystr :=
  py "Model: "
  ++ py_str rt (match dict_get (py "model") d with
                | Some m => m
                | None => JStr (py "Not specified")
                end)
  ++ nl
  ++ match dict_get (py "temperature") d with
     | Some t => py "Temperature: " ++ py_str rt t ++ nl
     | None => []
     end
  ++ nl ++ py "----- Messages -----" ++ nl ++ nl
  ++ concat (map (rendered_message rt) msgs).

(** A message the chat layout can render: an object whose role, when it
    has one, is a string. *)
Definition chat_message (msg : json) : Prop :=
  exists d, msg = JDict d /\
            (dict_get (py "role") d = None \/
             exists s, dict_get (py "role") d = Some (JStr s)).


(** The first line either fetcher prints. *)
Definition fetch_banner (object_id : option pystr) : pystr :=
  match object_id with
  | Some (c :: id) => py "Fetching object data for ID: " ++ (c :: id) ++ py "..."
  | _ => py "Fetching the latest Oracle request object..."
  end.

(** The object the node returns: identity, owner, timestamps and the
    decoded [value]. *)
Definition oracle_object (id object_type owner created_at updated_at : json)
    (value : json) : json :=
  JDict [(py "id", id); (py "object_type", object_type); (py "owner", owner);
         (py "created_at", created_at); (py "updated_at", updated_at);
         (py "decoded_value", JDict [(py "value", value)])].

(** A [value] whose only field is a response: the hex string sits at
    [response.value.vec.value[0][0]]. *)
Definition response_only (hex : pystr) : json :=
  JDict [(py "response",
          JDict [(py "value",
                  JDict [(py "vec",
                          JDict [(py "value",
                                  JList [JList [JStr hex]])])])])].

(** The OpenAI-style answer of the scenario, as text and as value. *)
Definition hello_text : pystr :=
  pyq "{'choices':[{'message':{'content':'hello'}}]}".

Definition hello_value : json :=
  JDict [(py "choices",
          JList [JDict [(py "message",
                        JDict [(py "content", JStr (py "hello"))])]])].

(** What the node prints in the scenario: one object with a response. *)
Definition sample_stdout : pystr :=
  pyq "{'data':[{'id':'0xabc','object_type':'0xf1::oracles::Request','owner':'rooch1qq','created_at':'1700000000000','updated_at':'1700000000500','decoded_value':{'value':{'response':{'value':{'vec':{'value':[['0x227b5c2263686f696365735c223a5b7b5c226d6573736167655c223a7b5c22636f6e74656e745c223a5c2268656c6c6f5c227d7d5d7d22']]}}}}}}],'next_cursor':null,'has_next_page':false}".







(** ** Vocabulary for the further properties *)

(** A result that is a value or an exception [except Exception]
    catches. *)
Definition ordinary {A} (r : res A) : Prop :=
  match r with
  | Ok _ => True
  | Raise e => is_Exception e = true
  end.


(** The text line 120 returns for an exception. *)
Definition body_error (rt : PyRuntime) (e : exn) : pystr :=
  py "Error processing request body: " ++ exn_str rt e.

(** [None], [bool], [int] and [float]: the values that are no
    container. *)
Definition is_scalar (v : json) : bool :=
  match v with
  | JNull | JBool _ | JInt _ | JFloat _ => true
  | _ => false
  end.

(** ['messages' in l] for a list. *)
Definition mentions_messages (l : list json) : bool :=
  existsb (fun x => match x with
                    | JStr s => pystr_eqb s (py "messages")
                    | _ => false
                    end) l.

(** A printing computation whose effect does not depend on what was
    printed before: it appends its own lines to the log. *)
Definition appends {A} (m : io A) : Prop :=
  forall out, m out = (fst (m []), out ++ snd (m [])).

(** It stops, if it does, with an ordinary exception or [sys.exit(1)]. *)
Definition stops_normally {A} (m : io A) : Prop :=
  match fst (m []) with
  | Ok _ => True
  | Raise e => is_Exception e = true \/ e = SystemExit 1
  end.


(** No key twice in a list of keys. *)
Fixpoint distinct (keys : list pystr) : bool :=
  match keys with
  | [] => true
  | k :: rest => negb (existsb (pystr_eqb k) rest) && distinct rest
  end.

(** Every object inside a value has distinct keys, as a Python [dict]
    must. *)
Fixpoint keys_unique (v : json) : bool :=
  match v with
  | JList l => forallb keys_unique l
  | JDict d =>
      distinct (map fst d)
      && forallb (fun kv => match kv with (_, x) => keys_unique x end) d
  | _ => true
  end.

(** * Properties *)

(** ** Strings *)

Lemma pystr_eqb_eq (a b : pystr) : pystr_eqb a b = true <-> a = b.
Proof.
  revert b; induction a as [|x a IH]; intros [|y b]; simpl;
    try (split; [discriminate | congruence]); try tauto.
  rewrite andb_true_iff, Z.eqb_eq, IH. split.
  - intros [-> ->]; reflexivity.
  - intros [= -> ->]; auto.
Qed.

Lemma pystr_eqb_refl (a : pystr) : pystr_eqb a a = true.
Proof. apply pystr_eqb_eq; reflexivity. Qed.

(** ** UTF-8: the decoder inverts the encoder *)

Ltac zbool :=
  repeat match goal with
  | H : (_ <? _) = true |- _ => apply Z.ltb_lt in H
  | H : (_ <? _) = false |- _ => apply Z.ltb_ge in H
  | H : (_ <=? _) = true |- _ => apply Z.leb_le in H
  | H : (_ <=? _) = false |- _ => apply Z.leb_gt in H
  | H : (_ =? _) = true |- _ => apply Z.eqb_eq in H
  | H : (_ =? _) = false |- _ => apply Z.eqb_neq in H
  | H : (_ && _) = true |- _ => apply andb_true_iff in H; destruct H
  | H : negb _ = true |- _ => apply negb_true_iff in H
  | H : in_range _ _ _ = true |- _ => unfold in_range in H
  end.

Lemma in_range_true lo c hi : lo <= c <= hi -> in_range lo c hi = true.
Proof. intros; unfold in_range; apply andb_true_iff; split; apply Z.leb_le; lia. Qed.

Lemma in_range_false lo c hi : c < lo \/ hi < c -> in_range lo c hi = false.
Proof.
  intros; unfold in_range; apply andb_false_iff.
  destruct H; [left; apply Z.leb_gt | right; apply Z.leb_gt]; lia.
Qed.

Lemma in_range_spec lo c hi : in_range lo c hi = true <-> lo <= c <= hi.
Proof. unfold in_range; rewrite andb_true_iff, !Z.leb_le; tauto. Qed.

Lemma utf8_decode_encode_cp (c : Z) (bs : pybytes) :
  scalar_value c ->
  utf8_decode (utf8_encode_cp c ++ bs) = option_map (cons c) (utf8_decode bs).
Proof.
  intros [Hr Hs]. unfold utf8_encode_cp.
  destruct (c <? 128) eqn:E1; [simpl; rewrite E1; reflexivity|].
  destruct (c <? 2048) eqn:E2; [|destruct (c <? 65536) eqn:E3]; zbool.
  - cbn [Datatypes.app utf8_decode].
    replace (192 + c / 64 <? 128) with false
      by (symmetry; apply Z.ltb_ge; Z.div_mod_to_equations; lia).
    rewrite (in_range_true 194) by (Z.div_mod_to_equations; lia).
    unfold is_cont. rewrite in_range_true by (Z.div_mod_to_equations; lia).
    do 2 f_equal. Z.div_mod_to_equations; lia.
  - cbn [Datatypes.app utf8_decode].
    replace (224 + c / 4096 <? 128) with false
      by (symmetry; apply Z.ltb_ge; Z.div_mod_to_equations; lia).
    rewrite (in_range_false 194) by (Z.div_mod_to_equations; lia).
    rewrite (in_range_true 224) by (Z.div_mod_to_equations; lia).
    assert (Hc : (224 + c / 4096 - 224) * 4096 + (128 + (c / 64) mod 64 - 128) * 64
                 + (128 + c mod 64 - 128) = c)
      by (Z.div_mod_to_equations; lia).
    cbv zeta. rewrite Hc. unfold is_cont, is_surrogate.
    rewrite !in_range_true by (Z.div_mod_to_equations; lia).
    rewrite (in_range_false 55296) by lia.
    replace (2048 <=? c) with true by (symmetry; apply Z.leb_le; lia).
    reflexivity.
  - cbn [Datatypes.app utf8_decode].
    replace (240 + c / 262144 <? 128) with false
      by (symmetry; apply Z.ltb_ge; Z.div_mod_to_equations; lia).
    rewrite (in_range_false 194) by (Z.div_mod_to_equations; lia).
    rewrite (in_range_false 224) by (Z.div_mod_to_equations; lia).
    rewrite (in_range_true 240) by (Z.div_mod_to_equations; lia).
    assert (Hc : (240 + c / 262144 - 240) * 262144
                 + (128 + (c / 4096) mod 64 - 128) * 4096
                 + (128 + (c / 64) mod 64 - 128) * 64
                 + (128 + c mod 64 - 128) = c)
      by (Z.div_mod_to_equations; lia).
    cbv zeta. rewrite Hc. unfold is_cont.
    rewrite !in_range_true by (Z.div_mod_to_equations; lia).
    reflexivity.
Qed.

Lemma utf8_decode_encode (t : pystr) :
  utf8_text t -> utf8_decode (utf8_encode t) = Some t.
Proof.
  induction 1 as [|c t Hc _ IH]; [reflexivity|].
  unfold utf8_encode in *; cbn [flat_map].
  rewrite utf8_decode_encode_cp, IH by assumption. reflexivity.
Qed.

Lemma utf8_encode_cp_bytes (c : Z) :
  scalar_value c -> Forall is_byte (utf8_encode_cp c).
Proof.
  intros [Hr _]. unfold utf8_encode_cp, is_byte.
  destruct (c <? 128) eqn:E1; [|destruct (c <? 2048) eqn:E2;
    [|destruct (c <? 65536) eqn:E3]]; zbool;
    repeat constructor; Z.div_mod_to_equations; lia.
Qed.

Lemma utf8_encode_bytes (t : pystr) :
  utf8_text t -> Forall is_byte (utf8_encode t).
Proof.
  induction 1 as [|c t Hc _ IH]; [constructor|].
  unfold utf8_encode in *; cbn [flat_map].
  apply Forall_app; split; [apply utf8_encode_cp_bytes|]; assumption.
Qed.

(** ** UTF-8: what the decoder accepts is an encoding of its result *)

Lemma option_map_cons_Some {A} (x : A) (o : option (list A)) (l : list A) :
  option_map (cons x) o = Some l -> exists l', o = Some l' /\ l = x :: l'.
Proof. destruct o; simpl; intros [= <-]; eauto. Qed.

Lemma utf8_decode_sound_aux (n : nat) :
  forall bs t, (length bs <= n)%nat -> Forall is_byte bs ->
  utf8_decode bs = Some t -> utf8_text t /\ utf8_encode t = bs.
Proof.
  induction n as [|n IH]; intros bs t Hlen Hb Hd.
  - destruct bs; [|simpl in Hlen; lia].
    injection Hd as <-. split; [constructor | reflexivity].
  - destruct bs as [|b0 r0]; [injection Hd as <-; split; [constructor|reflexivity]|].
    inversion Hb as [|? ? Hb0 Hr0]; subst. unfold is_byte in Hb0.
    cbn [utf8_decode] in Hd. simpl in Hlen.
    destruct (b0 <? 128) eqn:E0.
    { apply option_map_cons_Some in Hd as (t' & Hd & ->).
      apply IH in Hd as [Ht He]; [|lia|assumption]. zbool. split.
      - constructor; [split; lia | assumption].
      - unfold utf8_encode in *; cbn [flat_map]; rewrite He; unfold utf8_encode_cp.
        replace (b0 <? 128) with true by (symmetry; apply Z.ltb_lt; lia).
        reflexivity. }
    destruct (in_range 194 b0 223) eqn:E1.
    { destruct r0 as [|b1 r1]; [discriminate|].
      destruct (is_cont b1) eqn:C1; [|discriminate].
      apply option_map_cons_Some in Hd as (t' & Hd & ->).
      inversion Hr0; subst. simpl in Hlen.
      apply IH in Hd as [Ht He]; [|lia|assumption].
      unfold is_cont in C1. zbool. split.
      - constructor; [split; lia | assumption].
      - unfold utf8_encode in *; cbn [flat_map]; rewrite He; unfold utf8_encode_cp.
        replace ((b0 - 192) * 64 + (b1 - 128) <? 128) with false
          by (symmetry; apply Z.ltb_ge; lia).
        replace ((b0 - 192) * 64 + (b1 - 128) <? 2048) with true
          by (symmetry; apply Z.ltb_lt; lia).
        cbn [Datatypes.app]. f_equal; [|f_equal]; Z.div_mod_to_equations; lia. }
    destruct (in_range 224 b0 239) eqn:E2.
    { destruct r0 as [|b1 [|b2 r2]]; try discriminate.
      cbv zeta in Hd.
      set (c := (b0 - 224) * 4096 + (b1 - 128) * 64 + (b2 - 128)) in *.
      destruct (is_cont b1 && is_cont b2 && (2048 <=? c) && negb (is_surrogate c))
        eqn:C; [|discriminate].
      apply option_map_cons_Some in Hd as (t' & Hd & ->).
      inversion Hr0 as [|? ? ? Hr1]; subst. inversion Hr1; subst.
      simpl in Hlen.
      apply IH in Hd as [Ht He]; [|lia|assumption].
      unfold is_cont, is_surrogate in C. zbool.
      assert (Hs : ~ (55296 <= c <= 57343)).
      { intros Hs. apply in_range_spec in Hs. congruence. }
      assert (Hc : 2048 <= c < 65536) by (subst c; lia).
      split.
      - constructor; [split; [lia | assumption] | assumption].
      - unfold utf8_encode in *; cbn [flat_map]; rewrite He; unfold utf8_encode_cp.
        replace (c <? 128) with false by (symmetry; apply Z.ltb_ge; lia).
        replace (c <? 2048) with false by (symmetry; apply Z.ltb_ge; lia).
        replace (c <? 65536) with true by (symmetry; apply Z.ltb_lt; lia).
        cbn [Datatypes.app]. subst c.
        f_equal; [|f_equal; [|f_equal]]; Z.div_mod_to_equations; lia. }
    destruct (in_range 240 b0 244) eqn:E3; [|discriminate].
    destruct r0 as [|b1 [|b2 [|b3 r3]]]; try discriminate.
    cbv zeta in Hd.
    set (c := (b0 - 240) * 262144 + (b1 - 128) * 4096
              + (b2 - 128) * 64 + (b3 - 128)) in *.
    destruct (is_cont b1 && is_cont b2 && is_cont b3 && in_range 65536 c 1114111)
      eqn:C; [|discriminate].
    apply option_map_cons_Some in Hd as (t' & Hd & ->).
    inversion Hr0 as [|? ? ? Hr1]; subst. inversion Hr1 as [|? ? ? Hr2]; subst.
    inversion Hr2; subst. simpl in Hlen.
    apply IH in Hd as [Ht He]; [|lia|assumption].
    unfold is_cont in C. zbool.
    split.
    + constructor; [split; lia | assumption].
    + unfold utf8_encode in *; cbn [flat_map]; rewrite He; unfold utf8_encode_cp.
      replace (c <? 128) with false by (symmetry; apply Z.ltb_ge; lia).
      replace (c <? 2048) with false by (symmetry; apply Z.ltb_ge; lia).
      replace (c <? 65536) with false by (symmetry; apply Z.ltb_ge; lia).
      cbn [Datatypes.app]. subst c.
      f_equal; [|f_equal; [|f_equal; [|f_equal]]]; Z.div_mod_to_equations; lia.
Qed.

Lemma utf8_decode_sound (bs : pybytes) (t : pystr) :
  Forall is_byte bs -> utf8_decode bs = Some t ->
  utf8_text t /\ utf8_encode t = bs.
Proof. intros; eapply utf8_decode_sound_aux; eauto. Qed.

(** ** Hexadecimal text *)

Ltac ch_eval :=
  repeat match goal with
  | |- context [ch ?a] =>
      let v := eval vm_compute in (ch a) in change (ch a) with v
  end.

Lemma hex_val_range (c v : Z) : hex_val c = Some v -> 0 <= v < 16.
Proof.
  unfold hex_val; ch_eval.
  destruct (in_range 48 c 57) eqn:E1; [intros [= <-]; zbool; lia|].
  destruct (in_range 97 c 102) eqn:E2; [intros [= <-]; zbool; lia|].
  destruct (in_range 65 c 70) eqn:E3; [intros [= <-]; zbool; lia|discriminate].
Qed.

Lemma hex_val_digit (upper : bool) (n : Z) :
  0 <= n < 16 -> hex_val (hex_digit upper n) = Some n.
Proof.
  intros Hn. unfold hex_digit, hex_val; ch_eval.
  destruct (n <? 10) eqn:E; zbool.
  - rewrite in_range_true by lia. f_equal; lia.
  - destruct upper.
    + rewrite (in_range_false 48), (in_range_false 97), (in_range_true 65) by lia.
      f_equal; lia.
    + rewrite (in_range_false 48), (in_range_true 97) by lia. f_equal; lia.
Qed.

Lemma hex_digit_not_space (upper : bool) (n : Z) :
  0 <= n < 16 -> is_space (hex_digit upper n) = false.
Proof.
  intros Hn. unfold hex_digit, is_space; ch_eval.
  destruct (n <? 10) eqn:E; zbool; [|destruct upper];
    rewrite in_range_false by lia; rewrite orb_false_r; apply Z.eqb_neq; lia.
Qed.

Lemma hex_digit_not_x (upper : bool) (n : Z) :
  0 <= n < 16 -> (ch "x" =? hex_digit upper n) = false.
Proof.
  intros Hn. unfold hex_digit; ch_eval.
  destruct (n <? 10) eqn:E; zbool; [|destruct upper]; apply Z.eqb_neq; lia.
Qed.

Lemma bytes_fromhex_hexlify (upper : bool) (bs : pybytes) :
  Forall is_byte bs -> bytes_fromhex (hexlify upper bs) = Some bs.
Proof.
  induction 1 as [|b bs Hb _ IH]; [reflexivity|].
  unfold hexlify in *; cbn [flat_map Datatypes.app bytes_fromhex].
  unfold is_byte in Hb.
  assert (H1 : 0 <= b / 16 < 16) by (Z.div_mod_to_equations; lia).
  assert (H2 : 0 <= b mod 16 < 16) by (Z.div_mod_to_equations; lia).
  rewrite hex_digit_not_space, !hex_val_digit, IH by assumption.
  cbn [option_map]. do 2 f_equal. Z.div_mod_to_equations; lia.
Qed.

Lemma bytes_fromhex_bytes (s : pystr) :
  forall bs, bytes_fromhex s = Some bs -> Forall is_byte bs.
Proof.
  assert (H : forall n s bs, (length s <= n)%nat ->
                bytes_fromhex s = Some bs -> Forall is_byte bs).
  { induction n as [|n IH]; intros s' bs Hlen Hf.
    - destruct s'; [injection Hf as <-; constructor | simpl in Hlen; lia].
    - destruct s' as [|c r]; [injection Hf as <-; constructor|].
      simpl in Hlen. cbn [bytes_fromhex] in Hf.
      destruct (is_space c); [apply (IH r); [lia | assumption]|].
      destruct (hex_val c) as [hi|] eqn:Ehi; [|discriminate].
      destruct r as [|d r']; [discriminate|].
      destruct (hex_val d) as [lo|] eqn:Elo; [|discriminate].
      apply option_map_cons_Some in Hf as (bs' & Hf & ->).
      apply hex_val_range in Ehi, Elo. simpl in Hlen.
      constructor; [unfold is_byte; lia | apply (IH r'); [lia | assumption]]. }
  intros bs; apply (H (length s)); lia.
Qed.

Lemma strip_0x_hexlify (upper : bool) (bs : pybytes) :
  Forall is_byte bs -> strip_0x (hexlify upper bs) = hexlify upper bs.
Proof.
  intros Hb. unfold strip_0x.
  destruct Hb as [|b bs Hb _]; [reflexivity|].
  unfold hexlify; cbn [flat_map Datatypes.app]. unfold is_byte in Hb.
  change (py "0x") with [ch "0"; ch "x"]. cbn [startswith].
  rewrite (hex_digit_not_x upper (b mod 16)) by (Z.div_mod_to_equations; lia).
  rewrite andb_false_r. reflexivity.
Qed.

Lemma strip_0x_prefixed (s : pystr) : strip_0x (py "0x" ++ s) = s.
Proof. reflexivity. Qed.

Lemma hex_val_not_space (c v : Z) : hex_val c = Some v -> is_space c = false.
Proof.
  unfold hex_val, is_space; ch_eval. intros H.
  destruct (in_range 48 c 57) eqn:E1;
    [|destruct (in_range 97 c 102) eqn:E2;
      [|destruct (in_range 65 c 70) eqn:E3; [|discriminate]]];
    zbool; rewrite in_range_false by lia; rewrite orb_false_r;
    apply Z.eqb_neq; lia.
Qed.

Lemma bytes_fromhex_bad_digit (c : Z) :
  hex_val c = None -> is_space c = false ->
  forall s, In c s -> bytes_fromhex s = None.
Proof.
  intros Hv Hs.
  assert (H : forall n s, (length s <= n)%nat -> In c s ->
                          bytes_fromhex s = None).
  { induction n as [|n IH]; intros s Hlen Hin.
    - destruct s; [destruct Hin | simpl in Hlen; lia].
    - destruct s as [|x r]; [destruct Hin|]. simpl in Hlen.
      cbn [bytes_fromhex].
      destruct (is_space x) eqn:Ex.
      + destruct Hin as [-> | Hin]; [congruence | apply IH; [lia | assumption]].
      + destruct (hex_val x) as [hi|] eqn:Ehi; [|reflexivity].
        destruct Hin as [-> | Hin]; [congruence|].
        destruct r as [|d r']; [reflexivity|].
        destruct (hex_val d) as [lo|] eqn:Elo; [|reflexivity].
        destruct Hin as [-> | Hin]; [congruence|]. simpl in Hlen.
        rewrite (IH r') by (assumption || lia). reflexivity. }
  intros s; apply (H (length s)); lia.
Qed.

Lemma bytes_fromhex_odd (s : pystr) :
  Forall (fun c => hex_val c <> None) s -> Nat.odd (length s) = true ->
  bytes_fromhex s = None.
Proof.
  assert (H : forall n s, (length s <= n)%nat ->
                Forall (fun c => hex_val c <> None) s ->
                Nat.odd (length s) = true -> bytes_fromhex s = None).
  { induction n as [|n IH]; intros s' Hlen Hall Hodd.
    - destruct s'; [discriminate | simpl in Hlen; lia].
    - destruct s' as [|x r]; [discriminate|].
      inversion Hall as [|? ? Hx Hr]; subst. simpl in Hlen.
      cbn [bytes_fromhex].
      destruct (hex_val x) as [hi|] eqn:Ehi; [|congruence].
      rewrite (hex_val_not_space _ _ Ehi).
      destruct r as [|d r']; [reflexivity|].
      inversion Hr as [|? ? Hd Hr']; subst.
      destruct (hex_val d) as [lo|] eqn:Elo; [|congruence].
      simpl in Hlen.
      rewrite (IH r'); [reflexivity | lia | assumption |].
      change (length (x :: d :: r')) with (S (S (length r'))) in Hodd.
      rewrite Nat.odd_succ_succ in Hodd. assumption. }
  apply (H (length s)); lia.
Qed.

(** ** decode_hex *)

(** C5: hex round trip.  For every text [t] of Unicode scalar values, the
    hex decoder applied to the hexadecimal encoding (lower or upper case)
    of the UTF-8 bytes of [t], with or without a leading [0x], returns
    [t]. *)
Theorem decode_hex_roundtrip (t : pystr) (upper : bool) :
  utf8_text t ->
  decode_hex (JStr (hexlify upper (utf8_encode t))) = Ok t /\
  decode_hex (JStr (py "0x" ++ hexlify upper (utf8_encode t))) = Ok t.
Proof.
  intros Ht.
  assert (Hb := utf8_encode_bytes t Ht).
  assert (Hgo : (b <- of_option ValueError
                       (bytes_fromhex (hexlify upper (utf8_encode t))) ;;
                 of_option UnicodeDecodeError (utf8_decode b))%res = Ok t).
  { rewrite bytes_fromhex_hexlify by assumption.
    cbn [of_option rbind]. rewrite utf8_decode_encode by assumption.
    reflexivity. }
  split; unfold decode_hex.
  - rewrite strip_0x_hexlify by assumption. rewrite Hgo. reflexivity.
  - rewrite strip_0x_prefixed, Hgo. reflexivity.
Qed.

Lemma decode_hex_roundtrip_witness :
  utf8_text [104; 233; 8364; 128512] /\
  decode_hex (JStr (py "68c3a9e282acf09f9880")) = Ok [104; 233; 8364; 128512] /\
  decode_hex (JStr (py "0x68c3a9e282acf09f9880")) = Ok [104; 233; 8364; 128512].
Proof.
  assert (H : utf8_text [104; 233; 8364; 128512])
    by (repeat constructor; lia).
  split; [exact H | exact (decode_hex_roundtrip _ false H)].
Defined.

(** C6: the hex decoder never raises on a string, and on every string
    whose body (after the optional [0x]) is malformed -- a character that
    is no hexadecimal digit, an odd number of digits, or bytes that are
    not UTF-8 -- it returns the placeholder ['[Unable to decode hex]']. *)
Theorem decode_hex_placeholder (s : pystr) :
  (exists t, decode_hex (JStr s) = Ok t) /\
  (malformed_hex_utf8 (strip_0x s) ->
   decode_hex (JStr s) = Ok (py "[Unable to decode hex]")).
Proof.
  unfold decode_hex. split.
  - destruct (bytes_fromhex (strip_0x s)) as [bs|]; cbn;
      [destruct (utf8_decode bs); cbn|]; eauto.
  - intros [c Hin Hv Hs | Hall Hodd | bs Hf Hno].
    + rewrite (bytes_fromhex_bad_digit c Hv Hs _ Hin). reflexivity.
    + rewrite (bytes_fromhex_odd _ Hall Hodd). reflexivity.
    + rewrite Hf. cbn [of_option rbind].
      destruct (utf8_decode bs) as [t|] eqn:Ed; [|reflexivity].
      exfalso.
      destruct (utf8_decode_sound bs t (bytes_fromhex_bytes _ _ Hf) Ed)
        as [Ht He].
      exact (Hno t Ht He).
Qed.

Lemma decode_hex_placeholder_witness :
  malformed_hex_utf8 (strip_0x (py "0x68zz")) /\
  decode_hex (JStr (py "0x68zz")) = Ok (py "[Unable to decode hex]").
Proof.
  assert (H : malformed_hex_utf8 (strip_0x (py "0x68zz"))).
  { apply (Bad_digit _ (ch "z")); vm_compute; auto. }
  split; [exact H | exact (proj2 (decode_hex_placeholder _) H)].
Defined.

(** ** extract_nested_value *)

Lemma extract_loop_dict (d : pydict) (key : pystr) (keys : list pystr) :
  extract_loop (JDict d) (key :: keys) =
  match dict_get key d with
  | Some next => extract_loop next keys
  | None => Ok JNull
  end.
Proof. cbn. destruct (dict_get key d); reflexivity. Qed.

Lemma extract_loop_not_dict (v : json) (key : pystr) (keys : list pystr) :
  isinstance_dict v = false -> extract_loop v (key :: keys) = Ok JNull.
Proof. intros H. cbn. rewrite H. reflexivity. Qed.

Lemma extract_loop_total (keys : list pystr) :
  forall v, exists r, extract_loop v keys = Ok r.
Proof.
  induction keys as [|key keys IH]; intros v; [cbn; eauto|].
  destruct (isinstance_dict v) eqn:E.
  - destruct v; try discriminate. rewrite extract_loop_dict.
    destruct (dict_get key entries); eauto.
  - rewrite extract_loop_not_dict by assumption. eauto.
Qed.

Lemma extract_loop_stored (data : json) (keys : list pystr) (v : json) :
  stored_at data keys v -> extract_loop data keys = Ok v.
Proof.
  induction 1 as [v | d key keys next v Hget _ IH]; [reflexivity|].
  rewrite extract_loop_dict, Hget. exact IH.
Qed.

Lemma extract_loop_missing (data : json) (keys : list pystr) :
  missing_at data keys -> extract_loop data keys = Ok JNull.
Proof.
  induction 1 as [d key keys Hget | v key keys Hnd | d key keys next Hget _ IH].
  - rewrite extract_loop_dict, Hget. reflexivity.
  - apply extract_loop_not_dict; assumption.
  - rewrite extract_loop_dict, Hget. exact IH.
Qed.

(** Every path is either stored or missing, never both. *)
Lemma stored_or_missing (keys : list pystr) :
  forall data, (exists v, stored_at data keys v) \/ missing_at data keys.
Proof.
  induction keys as [|key keys IH]; intros data.
  - left; eexists; constructor.
  - destruct data; try (right; apply Not_a_mapping; reflexivity).
    destruct (dict_get key entries) as [next|] eqn:E.
    + destruct (IH next) as [[v Hv] | Hm].
      * left; exists v; econstructor; eassumption.
      * right; eapply Missing_below; eassumption.
    + right; apply Missing_key; assumption.
Qed.

(** C7: for every structure and every dotted path the extractor returns
    without raising; it returns the stored value when every segment is
    present, and the absent result [None] as soon as a segment is missing
    or is looked up in a value that is not a mapping. *)
Theorem extract_nested_value_spec (data : json) (path : pystr) :
  (exists r, extract_nested_value data path = Ok r) /\
  (forall v, stored_at data (split_dot path) v ->
             extract_nested_value data path = Ok v) /\
  (missing_at data (split_dot path) ->
   extract_nested_value data path = Ok JNull).
Proof.
  unfold extract_nested_value. split; [apply extract_loop_total|]. split.
  - intros v; apply extract_loop_stored.
  - apply extract_loop_missing.
Qed.

Lemma extract_nested_value_spec_witness :
  let data := JDict [(py "a", JDict [(py "b", JInt 7)])] in
  (stored_at data (split_dot (py "a.b")) (JInt 7) /\
   extract_nested_value data (py "a.b") = Ok (JInt 7)) /\
  (missing_at data (split_dot (py "a.c.d")) /\
   extract_nested_value data (py "a.c.d") = Ok JNull).
Proof.
  intros data.
  assert (Hs : stored_at data (split_dot (py "a.b")) (JInt 7)).
  { repeat (econstructor; try reflexivity). }
  assert (Hm : missing_at data (split_dot (py "a.c.d"))).
  { eapply Missing_below; [reflexivity|]. apply Missing_key. reflexivity. }
  split; split; try assumption.
  - exact (proj1 (proj2 (extract_nested_value_spec data (py "a.b"))) _ Hs).
  - exact (proj2 (proj2 (extract_nested_value_spec data (py "a.c.d"))) Hm).
Defined.

(** C10: a key that is present and maps to [None] (JSON null) gives the
    same result as a path that is missing: the extractor's answer is the
    absent result in both cases. *)
Theorem extract_nested_value_null_is_absent (data : json) (path : pystr) :
  stored_at data (split_dot path) JNull ->
  extract_nested_value data path = Ok JNull /\
  (forall other, missing_at other (split_dot path) ->
                 extract_nested_value other path
                 = extract_nested_value data path).
Proof.
  intros Hs. unfold extract_nested_value.
  rewrite (extract_loop_stored _ _ _ Hs). split; [reflexivity|].
  intros other Hm. apply extract_loop_missing; assumption.
Qed.

Lemma extract_nested_value_null_is_absent_witness :
  let data := JDict [(py "params", JDict [(py "value", JNull)])] in
  stored_at data (split_dot (py "params.value")) JNull /\
  extract_nested_value data (py "params.value") = Ok JNull /\
  extract_nested_value (JDict []) (py "params.value")
  = extract_nested_value data (py "params.value").
Proof.
  intros data.
  assert (Hs : stored_at data (split_dot (py "params.value")) JNull).
  { repeat (econstructor; try reflexivity). }
  destruct (extract_nested_value_null_is_absent data (py "params.value") Hs)
    as [H1 H2].
  split; [exact Hs|]. split; [exact H1|].
  apply H2. apply Missing_key. reflexivity.
Defined.

(** C3: the extractor does not index into sequences.  On the path
    ['value.0.0'] that line 192 passes for the callback, against a
    list-valued field, the addressed element exists but the extractor
    returns [None]; the callback section of such an object is never
    printed. *)
Theorem extract_nested_value_skips_sequences :
  let vec := JDict [(py "value", JList [JList [JStr (py "0x68656c6c6f")]])] in
  resolve_path vec (split_dot (py "value.0.0"))
  = Some (JStr (py "0x68656c6c6f")) /\
  extract_nested_value vec (py "value.0.0") = Ok JNull /\
  (forall (rt : PyRuntime) (out : list pystr),
     report_callback rt
       (JDict [(py "notify", JDict [(py "value", JDict [(py "vec", vec)])])])
       out
     = (Ok tt, out)).
Proof. repeat split. Qed.

(** ** json.loads: the fuel is enough, and failure is a [JSONDecodeError] *)

Lemma skip_ws_length (s : pystr) : (length (skip_ws s) <= length s)%nat.
Proof.
  induction s as [|c r IH]; simpl; [lia|].
  destruct (is_json_ws c); simpl; lia.
Qed.

Lemma span_digits_length (s : pystr) :
  forall ds rest, span_digits s = (ds, rest) -> (length rest <= length s)%nat.
Proof.
  induction s as [|c r IH]; simpl; intros ds rest H.
  - injection H as <- <-; simpl; lia.
  - destruct (is_digit c).
    + destruct (span_digits r) as [ds' rest'] eqn:E.
      injection H as <- <-. specialize (IH _ _ eq_refl). lia.
    + injection H as <- <-; simpl; lia.
Qed.

Lemma startswith_length (p s : pystr) :
  startswith p s = true -> (length p <= length s)%nat.
Proof.
  revert s; induction p as [|x p IH]; intros [|y s]; simpl; intros H;
    try lia; try discriminate.
  apply andb_true_iff in H as [_ H]. apply IH in H. lia.
Qed.

Lemma scanstring_length (s : pystr) :
  forall str rest, scanstring s = Some (str, rest) ->
                   (length rest < length s)%nat.
Proof.
  assert (Hmore : forall (c : Z) (o : option (pystr * pystr)) str rest,
            match o with
            | Some (str', rest') => Some (c :: str', rest')
            | None => None
            end = Some (str, rest) ->
            exists str', o = Some (str', rest)).
  { intros c [[str' rest']|] str rest H; [|discriminate].
    injection H as <- <-. eauto. }
  assert (H : forall n s str rest, (length s <= n)%nat ->
                scanstring s = Some (str, rest) ->
                (length rest < length s)%nat).
  { induction n as [|n IH]; intros s' str rest Hlen Hs.
    - destruct s'; [discriminate | simpl in Hlen; lia].
    - destruct s' as [|c r]; [discriminate|].
      simpl in Hlen. cbn [scanstring] in Hs. cbn [length].
      destruct (c =? DQUOTE); [injection Hs as <- <-; lia|].
      destruct (c =? BACKSLASH).
      + destruct r as [|e r1]; [discriminate|]. simpl in Hlen. cbn [length].
        destruct (e =? ch "u").
        * destruct r1 as [|h1 [|h2 [|h3 [|h4 r5]]]]; try discriminate.
          simpl in Hlen. cbn [length].
          destruct (hex4_val h1 h2 h3 h4) as [u|]; [|discriminate].
          assert (Hlone : forall str rest,
                    match scanstring r5 with
                    | Some (str', rest') => Some (u :: str', rest')
                    | None => None
                    end = Some (str, rest) ->
                    (length rest < S (S (S (S (S (S (length r5)))))))%nat).
          { intros str0 rest0 H0. apply Hmore in H0 as [str' H0].
            apply IH in H0; lia. }
          destruct (is_high_surrogate u); [|eauto].
          destruct r5 as [|b [|x [|l1 [|l2 [|l3 [|l4 r11]]]]]]; eauto.
          destruct ((b =? BACKSLASH) && (x =? ch "u")); [|eauto].
          destruct (hex4_val l1 l2 l3 l4) as [u2|]; [|discriminate].
          destruct (is_low_surrogate u2); [|eauto].
          apply Hmore in Hs as [str' Hs]. simpl in Hlen.
          apply IH in Hs; [cbn [length]; lia | lia].
        * destruct (unescape e); [|discriminate].
          apply Hmore in Hs as [str' Hs]. apply IH in Hs; lia.
      + destruct (c <? 32); [discriminate|].
        apply Hmore in Hs as [str' Hs]. apply IH in Hs; lia. }
  intros str rest; apply (H (length s)); lia.
Qed.

Ltac break_match_in_hyps :=
  match goal with
  | H : context [match ?x with _ => _ end] |- _ =>
      (is_var x; destruct x) || destruct x eqn:?
  | H : context [if ?x then _ else _] |- _ => destruct x eqn:?
  end.

Ltac inject_pairs :=
  repeat match goal with
  | E : (_, _) = (_, _) |- _ => inversion E; clear E; subst
  | E : Some _ = Some _ |- _ => inversion E; clear E; subst
  end.

Ltac span_facts :=
  repeat match goal with
  | H : span_digits _ = (_, _) |- _ => apply span_digits_length in H
  end.

Lemma match_number_length (s : pystr) :
  forall v rest, match_number s = Some (v, rest) ->
                 (length rest < length s)%nat.
Proof.
  intros v rest H. unfold match_number in H.
  repeat (break_match_in_hyps; try discriminate; inject_pairs; subst);
    span_facts; cbn [length] in *; lia.
Qed.

Lemma consumes_le (s s' : pystr) (r : res (json * pystr)) :
  consumes s' r -> (length s' <= length s)%nat -> consumes s r.
Proof. destruct r as [[v rest]|e]; simpl; intros; [lia | assumption]. Qed.

Lemma consumes_literal (p s : pystr) (v : json) :
  startswith p s = true -> (0 < length p)%nat ->
  consumes s (Ok (v, skipn (length p) s)).
Proof.
  intros H Hp. apply startswith_length in H. simpl.
  rewrite length_skipn. lia.
Qed.

Lemma scan_fuel_enough (fuel : nat) :
  (forall s, (2 * length s + 1 <= fuel)%nat -> consumes s (scan_once fuel s)) /\
  (forall s acc, (2 * length s + 2 <= fuel)%nat ->
                 consumes s (parse_members fuel s acc)) /\
  (forall s acc, (2 * length s + 2 <= fuel)%nat ->
                 consumes s (parse_items fuel s acc)).
Proof.
  induction fuel as [|f (IHs & IHm & IHi)].
  - repeat split; intros; lia.
  - split; [|split].
    + intros s Hf. destruct s as [|c r]; [reflexivity|].
      cbn [scan_once]. cbn [length] in Hf.
      destruct (c =? DQUOTE).
      { destruct (scanstring r) as [[str rest]|] eqn:E; [|reflexivity].
        apply scanstring_length in E. simpl. lia. }
      destruct (c =? ch "{").
      { pose proof (skip_ws_length r) as Hw.
        destruct (skip_ws r) as [|c' r']; [reflexivity|]. cbn [length] in Hw.
        destruct (c' =? ch "}"); [simpl; lia|].
        apply (consumes_le _ (c' :: r')); [apply IHm|]; cbn [length]; lia. }
      destruct (c =? ch "[").
      { pose proof (skip_ws_length r) as Hw.
        destruct (skip_ws r) as [|c' r']; [reflexivity|]. cbn [length] in Hw.
        destruct (c' =? ch "]"); [simpl; lia|].
        apply (consumes_le _ (c' :: r')); [apply IHi|]; cbn [length]; lia. }
      destruct (startswith (py "null") (c :: r)) eqn:E1;
        [apply (consumes_literal (py "null")); [assumption | simpl; lia]|].
      destruct (startswith (py "true") (c :: r)) eqn:E2;
        [apply (consumes_literal (py "true")); [assumption | simpl; lia]|].
      destruct (startswith (py "false") (c :: r)) eqn:E3;
        [apply (consumes_literal (py "false")); [assumption | simpl; lia]|].
      destruct (startswith (py "NaN") (c :: r)) eqn:E4;
        [apply (consumes_literal (py "NaN")); [assumption | simpl; lia]|].
      destruct (startswith (py "Infinity") (c :: r)) eqn:E5;
        [apply (consumes_literal (py "Infinity")); [assumption | simpl; lia]|].
      destruct (startswith (py "-Infinity") (c :: r)) eqn:E6;
        [apply (consumes_literal (py "-Infinity")); [assumption | simpl; lia]|].
      destruct (match_number (c :: r)) as [[v rest]|] eqn:E; [|reflexivity].
      apply match_number_length in E. exact E.
    + intros s acc Hf. destruct s as [|q r]; [reflexivity|].
      cbn [parse_members]. cbn [length] in Hf.
      destruct (q =? DQUOTE); [|reflexivity].
      destruct (scanstring r) as [[key r1]|] eqn:E; [|reflexivity].
      apply scanstring_length in E.
      pose proof (skip_ws_length r1) as Hw1.
      destruct (skip_ws r1) as [|colon r2]; [reflexivity|]. cbn [length] in Hw1.
      destruct (colon =? ch ":"); [|reflexivity].
      pose proof (skip_ws_length r2) as Hw2.
      assert (Hv : consumes (skip_ws r2) (scan_once f (skip_ws r2)))
        by (apply IHs; lia).
      destruct (scan_once f (skip_ws r2)) as [[v r3]|e]; [|exact Hv].
      simpl in Hv.
      pose proof (skip_ws_length r3) as Hw3.
      destruct (skip_ws r3) as [|d r4]; [reflexivity|]. cbn [length] in Hw3.
      destruct (d =? ch "}"); [simpl; lia|].
      destruct (d =? ch ","); [|reflexivity].
      pose proof (skip_ws_length r4) as Hw4.
      apply (consumes_le _ (skip_ws r4)); [apply IHm|]; cbn [length]; lia.
    + intros s acc Hf. cbn [parse_items].
      assert (Hv : consumes s (scan_once f s)) by (apply IHs; lia).
      destruct (scan_once f s) as [[v r1]|e]; [|exact Hv].
      simpl in Hv.
      pose proof (skip_ws_length r1) as Hw1.
      destruct (skip_ws r1) as [|d r2]; [reflexivity|]. cbn [length] in Hw1.
      destruct (d =? ch "]"); [simpl; lia|].
      destruct (d =? ch ","); [|reflexivity].
      pose proof (skip_ws_length r2) as Hw2.
      apply (consumes_le _ (skip_ws r2)); [apply IHi|]; cbn [length]; lia.
Qed.

(** [json.loads] of a string returns a value or raises
    [JSONDecodeError]: the fuel never runs out. *)
Lemma json_loads_result (s : pystr) :
  (exists v, json_loads (JStr s) = Ok v) \/
  json_loads (JStr s) = Raise JSONDecodeError.
Proof.
  unfold json_loads.
  destruct (startswith [65279] s); [right; reflexivity|].
  pose proof (skip_ws_length s) as Hw.
  destruct (scan_fuel_enough (2 * length s + 2)) as [Hs _].
  specialize (Hs (skip_ws s) ltac:(lia)).
  destruct (scan_once (2 * length s + 2) (skip_ws s)) as [[v rest]|e].
  - cbn [rbind]. destruct (skip_ws rest); [left; eauto | right; reflexivity].
  - simpl in Hs. subst e. right; reflexivity.
Qed.

(** ** process_request_body *)


Section Body.

Variable rt : PyRuntime.


End Body.


Section Chat.

Variable rt : PyRuntime.

Lemma messages_loop_rendered (msgs : list json) :
  Forall chat_message msgs ->
  forall result,
    messages_loop rt msgs result
    = Ok (result ++ concat (map (rendered_message rt) msgs)).
Proof.
  induction 1 as [|msg msgs (d & -> & Hrole) _ IH]; intros result.
  - cbn. rewrite app_nil_r. reflexivity.
  - cbn [messages_loop py_get rbind map concat rendered_message].
    unfold rendered_role.
    destruct Hrole as [Hr | (s & Hr)]; rewrite Hr.
    + cbn [py_eq_str]. change (pystr_eqb (py "unknown") (py "system")) with false.
      cbn [py_capitalize rbind].
      change (str_capitalize rt (py "unknown")) with (py "Unknown").
      rewrite IH. rewrite <- !app_assoc. reflexivity.
    + cbn [py_eq_str].
      destruct (pystr_eqb s (py "system")) eqn:E.
      * apply pystr_eqb_eq in E. subst s. cbn [py_upper rbind].
        change (str_upper rt (py "system")) with (py "SYSTEM").
        rewrite IH. rewrite <- !app_assoc. reflexivity.
      * cbn [py_capitalize rbind].
        rewrite IH. rewrite <- !app_assoc. reflexivity.
Qed.

(** C4 (amended): for every JSON body whose parsed value is an object
    with a [messages] list of objects whose roles are strings, the body
    decoder returns the chat layout: the model name (or [Not specified]),
    the temperature when present, and for every message its role --
    capitalized, [system] as [SYSTEM], [Unknown] when missing -- and its
    content.  For the body of the scenario the output is the [Model:
    gpt-4] line, the [Temperature: 0.7] line and a [[SYSTEM]] block
    holding [be nice], when the platform prints that float as [0.7]. *)
Theorem process_request_body_chat :
  (forall (body : pystr) (d : pydict) (msgs : list json),
     json_loads (JStr body) = Ok (JDict d) ->
     dict_get (py "messages") d = Some (JList msgs) ->
     Forall chat_message msgs ->
     process_request_body rt (JStr body) = Ok (rendered_chat rt d msgs)) /\
  (float_repr rt (py "0.7") = py "0.7" ->
   process_request_body rt
     (JStr (pyq "{'model':'gpt-4','temperature':0.7,'messages':[{'role':'system','content':'be nice'}]}"))
   = Ok (py "Model: gpt-4" ++ nl ++ py "Temperature: 0.7" ++ nl
         ++ nl ++ py "----- Messages -----" ++ nl ++ nl
         ++ py "[SYSTEM]" ++ nl ++ py "be nice" ++ nl ++ nl)).
Proof.
  assert (General : forall (body : pystr) (d : pydict) (msgs : list json),
     json_loads (JStr body) = Ok (JDict d) ->
     dict_get (py "messages") d = Some (JList msgs) ->
     Forall chat_message msgs ->
     process_request_body rt (JStr body) = Ok (rendered_chat rt d msgs)).
  { intros body d msgs Hload Hmsgs Hall.
    unfold process_request_body. rewrite Hload.
    cbn [rbind py_and py_contains py_getitem of_option]. rewrite Hmsgs.
    cbn [rbind isinstance_list of_option py_get].
    unfold rendered_chat.
    destruct (dict_get (py "temperature") d) as [t|];
      cbn [rbind of_option]; rewrite (messages_loop_rendered msgs Hall);
      cbn [try_except2]; rewrite <- ?app_assoc; reflexivity. }
  split; [exact General|].
  intros Hfloat.
  rewrite (General _
             [(py "model", JStr (py "gpt-4"));
              (py "temperature", JFloat (py "0.7"));
              (py "messages",
               JList [JDict [(py "role", JStr (py "system"));
                             (py "content", JStr (py "be nice"))]])]
             [JDict [(py "role", JStr (py "system"));
                     (py "content", JStr (py "be nice"))]]).
  - unfold rendered_chat.
    change (dict_get (py "temperature") _) with (Some (JFloat (py "0.7"))).
    cbn [py_str py_repr]. rewrite Hfloat. reflexivity.
  - reflexivity.
  - reflexivity.
  - repeat constructor. eexists; split; [reflexivity|].
    right; eexists; reflexivity.
Qed.

End Chat.

Lemma process_request_body_chat_witness :
  float_repr sample_runtime (py "0.7") = py "0.7" /\
  process_request_body sample_runtime
    (JStr (pyq "{'model':'gpt-4','temperature':0.7,'messages':[{'role':'system','content':'be nice'}]}"))
  = Ok (py "Model: gpt-4" ++ nl ++ py "Temperature: 0.7" ++ nl
        ++ nl ++ py "----- Messages -----" ++ nl ++ nl
        ++ py "[SYSTEM]" ++ nl ++ py "be nice" ++ nl ++ nl).
Proof.
  split; [reflexivity|].
  exact (proj2 (process_request_body_chat sample_runtime) eq_refl).
Defined.

(** C4 as stated fails: a [messages] list may hold anything.  On the body
    [{"model":"gpt-4","messages":[1]}] the decoder returns the text of
    the error it caught, and the model name is not in it. *)
Lemma process_request_body_chat_counterexample :
  ~ (forall (rt : PyRuntime) (body : pystr) (d : pydict)
            (msgs : list json) (model : pystr),
       json_loads (JStr body) = Ok (JDict d) ->
       dict_get (py "messages") d = Some (JList msgs) ->
       dict_get (py "model") d = Some (JStr model) ->
       exists text, process_request_body rt (JStr body) = Ok text /\
                    is_substring model text = true).
Proof.
  intros H.
  destruct (H sample_runtime (pyq "{'model':'gpt-4','messages':[1]}")
              [(py "model", JStr (py "gpt-4")); (py "messages", JList [JInt 1])]
              [JInt 1] (py "gpt-4") eq_refl eq_refl eq_refl)
    as (text & Ht & Hsub).
  vm_compute in Ht. injection Ht as <-. vm_compute in Hsub. discriminate.
Qed.

(** ** The report and the program *)

Arguments json_loads : simpl never.
Arguments format_timestamp : simpl never.
Arguments decode_hex : simpl never.
Arguments extract_nested_value : simpl never.
Arguments process_request_body : simpl never.

Ltac io_unfold :=
  unfold run, main, fetch_object_by_id, fetch_latest_request, fetch_handlers,
    analyze_oracle_request, report_http_request, report_callback,
    report_response, report_response_content, print_field,
    io_try, io_try2, io_when, io_bind, io_lift, print, io_ret, sys_exit.

Section Report.

Variable rt : PyRuntime.

Lemma json_loads_failure (s : pystr) :
  (forall v, json_loads (JStr s) <> Ok v) ->
  json_loads (JStr s) = Raise JSONDecodeError.
Proof.
  intros Hno. destruct (json_loads_result s) as [[v Hv] | Hv];
    [destruct (Hno v Hv) | exact Hv].
Qed.

(** C9: with an identifier, when the lookup prints JSON whose [data] is
    an empty list the program prints [Error: No object data found] and
    exits with status 1.  A command that exits non-zero or cannot be
    started, output that is not JSON, and a latest-query whose [data] is
    empty or missing each end the program with a diagnostic and status
    1. *)
Theorem fatal_errors_exit_1 :
  (forall (c : Z) (id stdout stderr : pystr) (d : pydict),
     json_loads (JStr stdout) = Ok (JDict d) ->
     dict_get (py "data") d = Some (JList []) ->
     run rt (Some (c :: id)) (Exited 0 stdout stderr)
     = (1, [py "Fetching object data for ID: " ++ (c :: id) ++ py "...";
            py "Error: No object data found"])) /\
  (forall (object_id : option pystr) (rc : Z) (stdout stderr : pystr),
     rc <> 0 ->
     run rt object_id (Exited rc stdout stderr)
     = (1, [fetch_banner object_id;
            py "Error executing rooch command: "
            ++ exn_str rt (CalledProcessError rc stderr);
            py "stderr: " ++ stderr])) /\
  (forall (object_id : option pystr),
     run rt object_id NotStarted
     = (1, [fetch_banner object_id; py "Error: " ++ exn_str rt OSError])) /\
  (forall (object_id : option pystr) (stdout stderr : pystr),
     (forall v, json_loads (JStr stdout) <> Ok v) ->
     run rt object_id (Exited 0 stdout stderr)
     = (1, [fetch_banner object_id;
            py "Error parsing response from rooch command: "
            ++ exn_str rt JSONDecodeError])) /\
  (forall (stdout stderr : pystr) (d : pydict),
     json_loads (JStr stdout) = Ok (JDict d) ->
     dict_get (py "data") d = Some (JList []) \/
     dict_get (py "data") d = None ->
     run rt None (Exited 0 stdout stderr)
     = (1, [py "Fetching the latest Oracle request object...";
            py "No Oracle request objects found."])).
Proof.
  repeat split.
  - intros c id stdout stderr d Hload Hdata.
    io_unfold. cbn. rewrite Hload. cbn. cbn in Hdata. rewrite Hdata.
    reflexivity.
  - intros object_id rc stdout stderr Hrc.
    apply Z.eqb_neq in Hrc.
    destruct object_id as [[|c id]|]; io_unfold; cbn; rewrite Hrc; reflexivity.
  - intros object_id.
    destruct object_id as [[|c id]|]; reflexivity.
  - intros object_id stdout stderr Hno.
    apply json_loads_failure in Hno.
    destruct object_id as [[|c id]|]; io_unfold; cbn; rewrite Hno; reflexivity.
  - intros stdout stderr d Hload Hdata.
    io_unfold. cbn. rewrite Hload. cbn.
    destruct Hdata as [Hdata | Hdata]; cbn in Hdata; rewrite Hdata;
      reflexivity.
Qed.

End Report.

Lemma fatal_errors_exit_1_witness :
  json_loads (JStr (pyq "{'data':[]}")) = Ok (JDict [(py "data", JList [])]) /\
  run sample_runtime (Some (py "0xABC")) (Exited 0 (pyq "{'data':[]}") [])
  = (1, [py "Fetching object data for ID: 0xABC...";
         py "Error: No object data found"]) /\
  run sample_runtime None (Exited 2 [] (py "connection refused"))
  = (1, [py "Fetching the latest Oracle request object...";
         py "Error executing rooch command: CalledProcessError";
         py "stderr: connection refused"]).
Proof.
  destruct (fatal_errors_exit_1 sample_runtime) as (Ha & Hb & _).
  split; [reflexivity|]. split.
  - exact (Ha (ch "0") (py "xABC") (pyq "{'data':[]}") []
                [(py "data", JList [])] eq_refl eq_refl).
  - apply (Hb None 2 [] (py "connection refused")). discriminate.
Defined.

Ltac eval_closed f :=
  repeat match goal with
  | |- context [f ?a ?b] =>
      let r := eval vm_compute in (f a b) in
      progress change (f a b) with r
  end.

Ltac eval_loads :=
  repeat match goal with
  | |- context [json_loads (JStr ?a)] =>
      let r := eval vm_compute in (json_loads (JStr a)) in
      progress change (json_loads (JStr a)) with r
  end.

Section Scenario.

Variable rt : PyRuntime.

(** C1: no identifier is given and the latest-query prints one object
    whose [value] holds, at [response.value.vec.value[0][0]], a hex
    string that decodes to the JSON text
    [{"choices":[{"message":{"content":"hello"}}]}] wrapped once more as
    a JSON string.  The program exits with status 0 and the section
    [AI Response Content] of its report prints exactly [hello]. *)
Theorem latest_response_prints_hello
    (stdout stderr : pystr) (d : pydict)
    (id object_type owner created_at updated_at : json)
    (created updated hex : pystr) :
  json_loads (JStr stdout) = Ok (JDict d) ->
  dict_get (py "data") d
  = Some (JList [oracle_object id object_type owner created_at updated_at
                   (response_only hex)]) ->
  format_timestamp rt created_at = Ok created ->
  format_timestamp rt updated_at = Ok updated ->
  decode_hex (JStr hex) = Ok (encode_basestring_ascii hello_text) ->
  run rt None (Exited 0 stdout stderr)
  = (0, [py "Fetching the latest Oracle request object...";
         banner "===== Oracle Request Object =====";
         py "ID: " ++ py_str rt id;
         py "Type: " ++ py_str rt object_type;
         py "Owner: " ++ py_str rt owner;
         py "Created: " ++ created;
         py "Updated: " ++ updated;
         banner "===== Request Details =====";
         banner "===== HTTP Request =====";
         banner "===== Response =====";
         nl ++ py "Response Content:";
         json_dumps rt hello_value;
         banner "===== AI Response Content =====";
         py "hello";
         banner "===== End of Oracle Request Details ====="]).
Proof.
  intros Hload Hdata Hc Hu Hhex.
  destruct hex as [|h hex]; [vm_compute in Hhex; discriminate|].
  io_unfold. cbn. rewrite Hload. cbn.
  cbn in Hdata. repeat (rewrite Hdata; cbn).
  rewrite Hc. cbn. rewrite Hu. cbn.
  eval_closed extract_nested_value. cbn.
  rewrite Hhex. cbn.
  eval_loads. cbn. eval_loads. cbn.
  reflexivity.
Qed.

End Scenario.

Lemma latest_response_prints_hello_witness :
  decode_hex
    (JStr (py "0x227b5c2263686f696365735c223a5b7b5c226d6573736167655c223a7b5c22636f6e74656e745c223a5c2268656c6c6f5c227d7d5d7d22"))
  = Ok (encode_basestring_ascii hello_text) /\
  run sample_runtime None (Exited 0 sample_stdout [])
  = (0, [py "Fetching the latest Oracle request object...";
         banner "===== Oracle Request Object =====";
         py "ID: 0xabc";
         py "Type: 0xf1::oracles::Request";
         py "Owner: rooch1qq";
         py "Created: 1700000000000";
         py "Updated: 1700000000500";
         banner "===== Request Details =====";
         banner "===== HTTP Request =====";
         banner "===== Response =====";
         nl ++ py "Response Content:";
         json_dumps sample_runtime hello_value;
         banner "===== AI Response Content =====";
         py "hello";
         banner "===== End of Oracle Request Details ====="]).
Proof.
  split; [vm_compute; reflexivity|].
  pose (hex := py "0x227b5c2263686f696365735c223a5b7b5c226d6573736167655c223a7b5c22636f6e74656e745c223a5c2268656c6c6f5c227d7d5d7d22").
  pose (obj := oracle_object (JStr (py "0xabc"))
                 (JStr (py "0xf1::oracles::Request")) (JStr (py "rooch1qq"))
                 (JStr (py "1700000000000")) (JStr (py "1700000000500"))
                 (response_only hex)).
  refine (latest_response_prints_hello sample_runtime sample_stdout []
            [(py "data", JList [obj]); (py "next_cursor", JNull);
             (py "has_next_page", JBool false)]
            (JStr (py "0xabc")) (JStr (py "0xf1::oracles::Request"))
            (JStr (py "rooch1qq")) (JStr (py "1700000000000"))
            (JStr (py "1700000000500"))
            (py "1700000000000") (py "1700000000500") hex _ _ _ _ _);
    vm_compute; reflexivity.
Defined.

(** ** Sections of the report whose data is absent *)

Arguments print_field : simpl never.
Arguments report_http_request : simpl never.
Arguments report_callback : simpl never.
Arguments report_response : simpl never.

Section Absence.

Variable rt : PyRuntime.













End Absence.



(** * Further properties of the code *)

(** ** decode_hex: what a result can be *)

(** X1: the decoder invents nothing.  Whatever it returns on a string is
    the placeholder, or a text of Unicode scalar values whose UTF-8 bytes
    are exactly the bytes the digits of the input spell. *)
Theorem decode_hex_sound (s t : pystr) :
  decode_hex (JStr s) = Ok t ->
  t = py "[Unable to decode hex]" \/
  (utf8_text t /\ bytes_fromhex (strip_0x s) = Some (utf8_encode t)).
Proof.
  unfold decode_hex.
  destruct (bytes_fromhex (strip_0x s)) as [bs|] eqn:Ef; cbn;
    [|intros [= <-]; left; reflexivity].
  destruct (utf8_decode bs) as [t'|] eqn:Ed; cbn;
    [|intros [= <-]; left; reflexivity].
  intros [= <-]. right.
  destruct (utf8_decode_sound bs t' (bytes_fromhex_bytes _ _ Ef) Ed)
    as [Ht He].
  split; [exact Ht | congruence].
Qed.

Lemma decode_hex_sound_witness :
  decode_hex (JStr (py "0x6f 6B")) = Ok (py "ok") /\
  (py "ok" = py "[Unable to decode hex]" \/
   (utf8_text (py "ok") /\
    bytes_fromhex (strip_0x (py "0x6f 6B")) = Some (utf8_encode (py "ok")))).
Proof.
  assert (H : decode_hex (JStr (py "0x6f 6B")) = Ok (py "ok")) by reflexivity.
  split; [exact H | exact (decode_hex_sound _ _ H)].
Defined.

(** X2: only the lower-case prefix is recognised.  Every string that
    starts with [0X] decodes to the placeholder, whatever follows. *)
Theorem decode_hex_upper_prefix (s : pystr) :
  decode_hex (JStr (py "0X" ++ s)) = Ok (py "[Unable to decode hex]").
Proof.
  unfold decode_hex.
  change (strip_0x (py "0X" ++ s)) with (py "0X" ++ s).
  assert (H : bytes_fromhex (py "0X" ++ s) = None).
  { apply (bytes_fromhex_bad_digit (ch "X")); [reflexivity | reflexivity |].
    right; left; reflexivity. }
  rewrite H. reflexivity.
Qed.

(** ** Dotted paths *)

Lemma split_dot_nonempty (s : pystr) : split_dot s <> [].
Proof.
  destruct s as [|c r]; cbn [split_dot]; [discriminate|].
  destruct (c =? ch "."); [discriminate|].
  destruct (split_dot r); discriminate.
Qed.

Lemma split_dot_app (p q : pystr) :
  split_dot (p ++ ch "." :: q) = split_dot p ++ split_dot q.
Proof.
  induction p as [|c p IH]; [reflexivity|].
  cbn [Datatypes.app split_dot]. rewrite IH.
  destruct (c =? ch "."); [reflexivity|].
  pose proof (split_dot_nonempty p) as Hp.
  destruct (split_dot p) as [|seg segs]; [congruence | reflexivity].
Qed.

(** X3: [path.split('.')] loses nothing.  It never returns an empty
    list, no segment contains a dot, joining the segments with dots
    gives the path back, and a list of dot-free segments is what the
    split of its join returns. *)
Theorem split_dot_join :
  (forall s, split_dot s <> [] /\
             Forall (fun seg => ~ In (ch ".") seg) (split_dot s) /\
             join (py ".") (split_dot s) = s) /\
  (forall segs, segs <> [] ->
                Forall (fun seg => ~ In (ch ".") seg) segs ->
                split_dot (join (py ".") segs) = segs).
Proof.
  split.
  - intros s. split; [apply split_dot_nonempty|].
    induction s as [|c r [IHf IHj]]; [split; [repeat constructor; auto | reflexivity]|].
    cbn [split_dot]. pose proof (split_dot_nonempty r) as Hr.
    destruct (c =? ch ".") eqn:E.
    + apply Z.eqb_eq in E. subst c. split.
      * constructor; [intros [] | exact IHf].
      * destruct (split_dot r) as [|seg segs]; [congruence|].
        cbn [join] in *. destruct segs; cbn in *; congruence.
    + apply Z.eqb_neq in E.
      destruct (split_dot r) as [|seg segs]; [congruence|]. split.
      * inversion IHf; subst. constructor; [|assumption].
        intros [H | H]; [congruence | auto].
      * cbn [join] in *. destruct segs; cbn in *; congruence.
  - induction segs as [|seg segs IH]; [congruence|].
    intros _ Hall. inversion Hall as [|? ? Hseg Hsegs]; subst.
    assert (Hone : forall t, ~ In (ch ".") t -> split_dot t = [t]).
    { induction t as [|c t IHt]; [reflexivity|]. intros Hin.
      cbn [split_dot].
      destruct (c =? ch ".") eqn:E;
        [apply Z.eqb_eq in E; exfalso; apply Hin; left; auto|].
      rewrite IHt by (intros H; apply Hin; right; exact H). reflexivity. }
    destruct segs as [|seg' segs'].
    + cbn [join]. apply Hone; assumption.
    + change (join (py ".") (seg :: seg' :: segs'))
        with (seg ++ ch "." :: join (py ".") (seg' :: segs')).
      rewrite split_dot_app, Hone, IH by (assumption || discriminate).
      reflexivity.
Qed.

Lemma split_dot_join_witness :
  [py "notify"; py "value"; py "vec"] <> [] /\
  split_dot (py "notify.value.vec") = [py "notify"; py "value"; py "vec"].
Proof.
  assert (H1 : [py "notify"; py "value"; py "vec"] <> []) by discriminate.
  split; [exact H1|].
  apply (proj2 split_dot_join [py "notify"; py "value"; py "vec"] H1).
  repeat constructor; vm_compute; intuition discriminate.
Defined.

Lemma extract_loop_app (keys1 keys2 : list pystr) :
  keys2 <> [] ->
  forall data,
    extract_loop data (keys1 ++ keys2)
    = (r <- extract_loop data keys1 ;; extract_loop r keys2)%res.
Proof.
  intros H2. induction keys1 as [|key keys1 IH]; intros data; [reflexivity|].
  cbn [Datatypes.app].
  destruct (isinstance_dict data) eqn:E.
  - destruct data; try discriminate. rewrite !extract_loop_dict.
    destruct (dict_get key entries); [apply IH|].
    cbn [rbind]. destruct keys2; [congruence | reflexivity].
  - rewrite !extract_loop_not_dict by assumption.
    cbn [rbind]. destruct keys2; [congruence | reflexivity].
Qed.

(** X4: paths compose.  Looking up [p.q] is looking up [p] and then [q]
    in the result, for all paths and all data: a miss on the way stays a
    miss.  So the two-step lookup of lines 189-192 is one lookup of
    [notify.value.vec.value.0.0]. *)
Theorem extract_nested_value_compose (data : json) (p q : pystr) :
  extract_nested_value data (p ++ py "." ++ q)
  = (r <- extract_nested_value data p ;; extract_nested_value r q)%res.
Proof.
  unfold extract_nested_value.
  change (p ++ py "." ++ q) with (p ++ ch "." :: q).
  rewrite split_dot_app. apply extract_loop_app. apply split_dot_nonempty.
Qed.

(** ** Which exceptions pure code raises *)

Create HintDb ordinary.

Lemma ordinary_Ok {A} (a : A) : ordinary (Ok a).
Proof. exact I. Qed.

Lemma ordinary_bind {A B} (m : res A) (k : A -> res B) :
  ordinary m -> (forall a, ordinary (k a)) -> ordinary (rbind m k).
Proof. destruct m; cbn; auto. Qed.

Lemma ordinary_of_option {A} (e : exn) (o : option A) :
  is_Exception e = true -> ordinary (of_option e o).
Proof. destruct o; cbn; auto. Qed.

Lemma ordinary_py_contains (k : pystr) (v : json) : ordinary (py_contains k v).
Proof. destruct v; cbn; auto. Qed.

Lemma ordinary_py_getitem (v : json) (k : pystr) : ordinary (py_getitem v k).
Proof. destruct v; cbn; auto. destruct (dict_get k entries); cbn; auto. Qed.

Lemma ordinary_py_getitem0 (v : json) : ordinary (py_getitem0 v).
Proof. destruct v as [| | | |[|]|[|]|]; cbn; auto. Qed.

Lemma ordinary_py_get (v : json) (k : pystr) (dflt : json) :
  ordinary (py_get v k dflt).
Proof. destruct v; cbn; auto. Qed.

Lemma ordinary_py_len (v : json) : ordinary (py_len v).
Proof. destruct v; cbn; auto. Qed.

Lemma ordinary_py_and (a b : res bool) :
  ordinary a -> ordinary b -> ordinary (py_and a b).
Proof. destruct a as [[|]|]; cbn; auto. Qed.

Lemma ordinary_py_or (a b : res bool) :
  ordinary a -> ordinary b -> ordinary (py_or a b).
Proof. destruct a as [[|]|]; cbn; auto. Qed.

Lemma ordinary_json_loads (x : json) : ordinary (json_loads x).
Proof.
  destruct x; try exact eq_refl.
  destruct (json_loads_result s) as [[v ->] | ->]; cbn; auto.
Qed.

Lemma ordinary_decode_hex (x : json) : ordinary (decode_hex x).
Proof.
  destruct x; try exact eq_refl. unfold decode_hex.
  destruct (bytes_fromhex (strip_0x s)) as [bs|]; cbn;
    [destruct (utf8_decode bs); cbn|]; auto.
Qed.

Lemma ordinary_extract_nested_value (data : json) (path : pystr) :
  ordinary (extract_nested_value data path).
Proof.
  unfold extract_nested_value.
  destruct (extract_loop_total (split_dot path) data) as [r ->]. exact I.
Qed.

#[local] Hint Resolve ordinary_Ok ordinary_of_option
  ordinary_py_contains ordinary_py_getitem ordinary_py_getitem0
  ordinary_py_get ordinary_py_len
  ordinary_json_loads ordinary_decode_hex ordinary_extract_nested_value
  : ordinary.

Ltac ord_tac :=
  repeat match goal with
  | |- ordinary (rbind _ _) => apply ordinary_bind; [|intros ?]
  | |- ordinary (py_and _ _) => apply ordinary_py_and
  | |- ordinary (py_or _ _) => apply ordinary_py_or
  | |- ordinary (Ok _) => exact I
  | |- ordinary (if ?c then _ else _) => destruct c
  | |- ordinary _ => solve [auto 3 with ordinary]
  end.

Section Total.

Variable rt : PyRuntime.

Lemma ordinary_py_upper (v : json) : ordinary (py_upper rt v).
Proof. destruct v; cbn; auto. Qed.

Lemma ordinary_py_capitalize (v : json) : ordinary (py_capitalize rt v).
Proof. destruct v; cbn; auto. Qed.

Lemma ordinary_messages_loop (msgs : list json) :
  forall result, ordinary (messages_loop rt msgs result).
Proof.
  induction msgs as [|msg msgs IH]; intros result; [exact I|].
  cbn [messages_loop].
  apply ordinary_bind; [auto with ordinary|]. intros role.
  apply ordinary_bind; [auto with ordinary|]. intros content.
  apply ordinary_bind; [|intros; apply IH].
  destruct (py_eq_str role (py "system"));
    [apply ordinary_py_upper | apply ordinary_py_capitalize].
Qed.

Lemma process_request_body_returns (body : json) :
  exists text, process_request_body rt body = Ok text.
Proof.
  unfold process_request_body.
  match goal with
  | |- exists text, try_except2 ?m _ ?h1 _ ?h2 = _ =>
      assert (Hm : ordinary m); [|set (inner := m) in *]
  end.
  { ord_tac.
    match goal with
    | |- ordinary (match ?m with _ => _ end) => destruct m
    end; try exact eq_refl. apply ordinary_messages_loop. }
  assert (Hjson : inner = Raise JSONDecodeError -> exists s, body = JStr s).
  { subst inner. destruct body; cbn; try discriminate. eauto. }
  destruct inner as [text|e]; cbn [try_except2]; [eauto|].
  destruct e; cbn in Hm |- *; try discriminate; eauto.
  destruct Hjson as [s ->]; [reflexivity | eauto].
Qed.

(** X5: the body decoder never raises.  Whatever it is given -- any
    value, JSON or not, chat-shaped or not -- it returns a text, so the
    report can always print a request body. *)
Theorem process_request_body_total (body : json) :
  exists text, process_request_body rt body = Ok text.
Proof. exact (process_request_body_returns body). Qed.

(** X6: JSON bodies that are not chat requests.  A body that parses to
    [null], a boolean or a number, to a string that mentions [messages],
    or to a list with the element ["messages"], is answered with the
    error text for a [TypeError] and not pretty-printed; every other
    string or list, and every object without a [messages] list, is
    returned as [json.dumps(..., indent=2)]. *)
Theorem process_request_body_other_json (body : pystr) (v : json) :
  json_loads (JStr body) = Ok v ->
  (is_scalar v = true ->
   process_request_body rt (JStr body) = Ok (body_error rt TypeError)) /\
  (forall s, v = JStr s ->
     process_request_body rt (JStr body)
     = Ok (if is_substring (py "messages") s
           then body_error rt TypeError else json_dumps rt v)) /\
  (forall l, v = JList l ->
     process_request_body rt (JStr body)
     = Ok (if mentions_messages l
           then body_error rt TypeError else json_dumps rt v)) /\
  (forall d, v = JDict d ->
     (forall msgs, dict_get (py "messages") d <> Some (JList msgs)) ->
     process_request_body rt (JStr body) = Ok (json_dumps rt v)).
Proof.
  intros Hload. unfold process_request_body. rewrite Hload.
  cbn [rbind]. repeat split.
  - destruct v; try discriminate; reflexivity.
  - intros s ->. cbn [py_and py_contains rbind].
    destruct (is_substring (py "messages") s); reflexivity.
  - intros l ->. cbn [py_and py_contains rbind]. unfold mentions_messages.
    destruct (existsb _ l); reflexivity.
  - intros d -> Hno. cbn [py_and py_contains py_getitem rbind].
    destruct (dict_get (py "messages") d) as [m|]; [|reflexivity].
    cbn [of_option rbind].
    destruct m; try reflexivity. destruct (Hno items eq_refl).
Qed.

(** X7: the assistant's message.  The extraction never raises; it
    returns the content when [choices[0].message.content] exists, and
    [None] when [choices] is missing or empty and whenever the response
    is not an object. *)
Theorem process_openai_response_spec (response_json : json) :
  (exists r, process_openai_response rt response_json = Ok r) /\
  (forall d c0 rest m x,
     response_json = JDict d ->
     dict_get (py "choices") d = Some (JList (JDict c0 :: rest)) ->
     dict_get (py "message") c0 = Some (JDict m) ->
     dict_get (py "content") m = Some x ->
     process_openai_response rt response_json = Ok x) /\
  (forall d,
     response_json = JDict d ->
     dict_get (py "choices") d = None \/
     dict_get (py "choices") d = Some (JList []) ->
     process_openai_response rt response_json = Ok JNull) /\
  (isinstance_dict response_json = false ->
   process_openai_response rt response_json = Ok JNull).
Proof.
  unfold process_openai_response. repeat split.
  - match goal with
    | |- exists r, try_except ?m _ _ = _ => destruct m; cbn; eauto
    end.
  - intros d c0 rest m x -> Hc Hm Hx.
    cbn [py_and py_contains py_getitem rbind]. rewrite Hc.
    cbn [of_option rbind py_truthy py_getitem0 py_contains py_getitem].
    rewrite Hm. cbn [of_option rbind py_contains py_getitem]. rewrite Hx.
    reflexivity.
  - intros d -> [Hc | Hc]; cbn [py_and py_contains py_getitem rbind];
      rewrite Hc; reflexivity.
  - intros Hnd. destruct response_json; try discriminate;
      cbn [py_and py_contains rbind]; try reflexivity.
    + destruct (is_substring (py "choices") s); reflexivity.
    + destruct (existsb _ items); reflexivity.
Qed.

End Total.

Lemma process_request_body_other_json_witness :
  json_loads (JStr (py "42")) = Ok (JInt 42) /\
  process_request_body sample_runtime (JStr (py "42"))
  = Ok (py "Error processing request body: TypeError") /\
  process_request_body sample_runtime (JStr (pyq "{'a':[]}"))
  = Ok (pyq "{" ++ nl ++ pyq "  'a': []" ++ nl ++ py "}").
Proof.
  split; [reflexivity|]. split.
  - exact (proj1 (process_request_body_other_json sample_runtime
                    (py "42") (JInt 42) eq_refl) eq_refl).
  - refine (proj2 (proj2 (proj2 (process_request_body_other_json
              sample_runtime (pyq "{'a':[]}")
              (JDict [(py "a", JList [])]) eq_refl)))
              [(py "a", JList [])] eq_refl _).
    intros msgs; discriminate.
Defined.

Lemma process_openai_response_spec_witness :
  process_openai_response sample_runtime hello_value = Ok (JStr (py "hello"))
  /\ process_openai_response sample_runtime (JList [JStr (py "choices")])
     = Ok JNull.
Proof.
  split.
  - refine (proj1 (proj2 (process_openai_response_spec sample_runtime
              hello_value)) _ _ [] _ _ eq_refl eq_refl eq_refl eq_refl).
  - exact (proj2 (proj2 (proj2 (process_openai_response_spec sample_runtime
             (JList [JStr (py "choices")])))) eq_refl).
Defined.

(** ** How printing computations compose *)

Lemma appends_ret {A} (a : A) : appends (io_ret a).
Proof. intros out. cbn. rewrite app_nil_r. reflexivity. Qed.

Lemma appends_lift {A} (r : res A) : appends (io_lift r).
Proof. intros out. cbn. rewrite app_nil_r. reflexivity. Qed.

Lemma appends_exit {A} (code : Z) : appends (@sys_exit A code).
Proof. apply appends_lift. Qed.

Lemma appends_print (s : pystr) : appends (print s).
Proof. intros out. reflexivity. Qed.

Lemma appends_bind {A B} (m : io A) (k : A -> io B) :
  appends m -> (forall a, appends (k a)) -> appends (io_bind m k).
Proof.
  intros Hm Hk out. unfold io_bind. rewrite (Hm out).
  destruct (m []) as [[a|e] om]; cbn [fst snd].
  - rewrite (Hk a (out ++ om)), (Hk a om). cbn [fst snd].
    rewrite app_assoc. reflexivity.
  - reflexivity.
Qed.

Lemma appends_try {A} (m : io A) (sel : exn -> bool) (h : exn -> io A) :
  appends m -> (forall e, appends (h e)) -> appends (io_try m sel h).
Proof.
  intros Hm Hh out. unfold io_try. rewrite (Hm out).
  destruct (m []) as [[a|e] om]; cbn [fst snd]; [reflexivity|].
  destruct (sel e); [|reflexivity].
  rewrite (Hh e (out ++ om)), (Hh e om). cbn [fst snd].
  rewrite app_assoc. reflexivity.
Qed.

Lemma appends_try2 {A} (m : io A)
    (sel1 : exn -> bool) (h1 : exn -> io A)
    (sel2 : exn -> bool) (h2 : exn -> io A) :
  appends m -> (forall e, appends (h1 e)) -> (forall e, appends (h2 e)) ->
  appends (io_try2 m sel1 h1 sel2 h2).
Proof.
  intros Hm H1 H2 out. unfold io_try2. rewrite (Hm out).
  destruct (m []) as [[a|e] om]; cbn [fst snd]; [reflexivity|].
  destruct (sel1 e).
  - rewrite (H1 e (out ++ om)), (H1 e om). cbn [fst snd].
    rewrite app_assoc. reflexivity.
  - destruct (sel2 e); [|reflexivity].
    rewrite (H2 e (out ++ om)), (H2 e om). cbn [fst snd].
    rewrite app_assoc. reflexivity.
Qed.

Lemma appends_when (c : bool) (m : io unit) :
  appends m -> appends (io_when c m).
Proof. destruct c; [auto | intros _; apply appends_ret]. Qed.

Lemma appends_if {A} (c : bool) (m1 m2 : io A) :
  appends m1 -> appends m2 -> appends (if c then m1 else m2).
Proof. destruct c; auto. Qed.

Ltac appends_tac :=
  repeat match goal with
  | |- forall _, _ => intros ?
  | |- appends (io_bind _ _) => apply appends_bind
  | |- appends (io_try2 _ _ _ _ _) => apply appends_try2
  | |- appends (io_try _ _ _) => apply appends_try
  | |- appends (io_when _ _) => apply appends_when
  | |- appends (if _ then _ else _) => apply appends_if
  | |- appends (print _) => apply appends_print
  | |- appends (io_ret _) => apply appends_ret
  | |- appends (sys_exit _) => apply appends_exit
  | |- appends (io_lift _) => apply appends_lift
  end.

Lemma stops_of_result {A} (m : io A) (r : res A) (out : list pystr) :
  m [] = (r, out) ->
  match r with
  | Ok _ => True
  | Raise e => is_Exception e = true \/ e = SystemExit 1
  end ->
  stops_normally m.
Proof. intros E H. unfold stops_normally. rewrite E. exact H. Qed.












Section Behaviour.

Variable rt : PyRuntime.

Lemma appends_print_field (value : json) (key label suffix : pystr) :
  appends (print_field rt value key label suffix).
Proof. unfold print_field. appends_tac. Qed.

Lemma appends_report_http_request (value : json) :
  appends (report_http_request rt value).
Proof.
  unfold report_http_request. appends_tac; apply appends_print_field.
Qed.

Lemma appends_report_callback (value : json) :
  appends (report_callback rt value).
Proof. unfold report_callback. appends_tac. Qed.

Lemma appends_report_response_content (hex_string : json) :
  appends (report_response_content rt hex_string).
Proof. unfold report_response_content. appends_tac. Qed.

Ltac appends_known :=
  lazymatch goal with
  | |- appends (print_field _ _ _ _ _) => apply appends_print_field
  | |- appends (report_http_request _ _) => apply appends_report_http_request
  | |- appends (report_callback _ _) => apply appends_report_callback
  | |- appends (report_response_content _ _) =>
      apply appends_report_response_content
  end.

Lemma appends_report_response (value : json) :
  appends (report_response rt value).
Proof. unfold report_response. appends_tac; appends_known. Qed.

Lemma appends_analyze_oracle_request (data : json) :
  appends (analyze_oracle_request rt data).
Proof.
  unfold analyze_oracle_request. appends_tac;
    lazymatch goal with
    | |- appends (report_response _ _) => apply appends_report_response
    | |- _ => appends_known
    end.
Qed.

Lemma appends_fetch (rooch : process) (object_id : option pystr) :
  appends match object_id with
          | Some (c :: id) => fetch_object_by_id rt rooch (c :: id)
          | _ => fetch_latest_request rt rooch
          end.
Proof.
  destruct object_id as [[|c id]|];
    unfold fetch_object_by_id, fetch_latest_request, fetch_handlers;
    appends_tac.
Qed.












End Behaviour.

Section Program.

Variable rt : PyRuntime.





(** What [run] gives once the fetch has returned the data. *)
Lemma run_after_fetch (object_id : option pystr) (rooch : process)
    (data : json) (first : pystr) :
  match object_id with
  | Some (c :: id) => fetch_object_by_id rt rooch (c :: id)
  | _ => fetch_latest_request rt rooch
  end [] = (Ok data, [first]) ->
  run rt object_id rooch
  = match analyze_oracle_request rt data [] with
    | (Ok _, lines) => (0, first :: lines)
    | (Raise (SystemExit code), lines) => (code, first :: lines)
    | (Raise e, lines) =>
        (1, first :: lines ++ [py "Error: " ++ exn_str rt e])
    end.
Proof.
  intros Hf. unfold run, main, io_try. unfold io_bind at 1.
  rewrite Hf. rewrite (appends_analyze_oracle_request rt data [first]).
  destruct (analyze_oracle_request rt data []) as [[u|e] lines];
    cbn [fst snd]; [reflexivity|].
  destruct e; reflexivity.
Qed.

(** X8: the report does not depend on how the object was fetched.  When
    the command prints JSON with a non-empty [data], a run with an
    identifier and a run without one exit with the same status and print
    the same lines after their first. *)
Theorem report_independent_of_fetch
    (c : Z) (id stdout stderr : pystr) (d : pydict) (x : json) :
  json_loads (JStr stdout) = Ok (JDict d) ->
  dict_get (py "data") d = Some x ->
  py_truthy rt x = true ->
  exists code lines,
    run rt (Some (c :: id)) (Exited 0 stdout stderr)
    = (code, (py "Fetching object data for ID: " ++ (c :: id) ++ py "...")
             :: lines) /\
    run rt None (Exited 0 stdout stderr)
    = (code, py "Fetching the latest Oracle request object..." :: lines).
Proof.
  intros Hload Hdata Htrue.
  rewrite (run_after_fetch (Some (c :: id)) _ (JDict d)
             (py "Fetching object data for ID: " ++ (c :: id) ++ py "...")).
  2:{ unfold fetch_object_by_id, fetch_handlers, io_try2, io_bind, io_lift,
        print. cbn [subprocess_run Z.eqb]. rewrite Hload. reflexivity. }
  rewrite (run_after_fetch None _ (JDict d)
             (py "Fetching the latest Oracle request object...")).
  2:{ unfold fetch_latest_request, fetch_handlers, io_try2, io_bind, io_lift,
        print, io_ret. cbn [subprocess_run Z.eqb]. rewrite Hload.
      cbn [py_get]. rewrite Hdata, Htrue. reflexivity. }
  destruct (analyze_oracle_request rt (JDict d) []) as [[u|e] lines];
    [eauto|]. destruct e; eauto.
Qed.



End Program.

Arguments process_openai_response : simpl never.
Arguments json_dumps : simpl never.


Section ResponseContent.

Variable rt : PyRuntime.


End ResponseContent.



Lemma report_independent_of_fetch_witness :
  exists code lines,
    run sample_runtime (Some (py "0xabc")) (Exited 0 sample_stdout [])
    = (code, py "Fetching object data for ID: 0xabc..." :: lines) /\
    run sample_runtime None (Exited 0 sample_stdout [])
    = (code, py "Fetching the latest Oracle request object..." :: lines).
Proof.
  refine (report_independent_of_fetch sample_runtime (ch "0") (py "xabc")
            sample_stdout []
            [(py "data",
              JList [oracle_object (JStr (py "0xabc"))
                       (JStr (py "0xf1::oracles::Request"))
                       (JStr (py "rooch1qq")) (JStr (py "1700000000000"))
                       (JStr (py "1700000000500"))
                       (response_only (py "0x227b5c2263686f696365735c223a5b7b5c226d6573736167655c223a7b5c22636f6e74656e745c223a5c2268656c6c6f5c227d7d5d7d22"))]);
             (py "next_cursor", JNull); (py "has_next_page", JBool false)]
            _ _ eq_refl _);
    vm_compute; reflexivity.
Defined.



(** ** JSON strings: the scanner inverts the encoder *)

Lemma lor_high_low (a y : Z) :
  0 <= y < 2 ^ 10 -> Z.lor (a * 2 ^ 10) y = a * 2 ^ 10 + y.
Proof.
  intros Hy.
  assert (H0 : Z.land (a * 2 ^ 10) y = 0).
  { apply Z.bits_inj'. intros n Hn.
    rewrite Z.land_spec, Z.bits_0.
    destruct (Z.lt_ge_cases n 10) as [Hlt | Hge].
    - rewrite Z.mul_pow2_bits_low by assumption. reflexivity.
    - assert (Hb : Z.testbit y n = false).
      { destruct (Z.eq_dec y 0) as [-> | Hne]; [apply Z.bits_0|].
        apply Z.bits_above_log2; [lia|].
        apply Z.lt_le_trans with 10; [|assumption].
        apply Z.log2_lt_pow2; lia. }
      rewrite Hb. apply andb_false_r. }
  pose proof (Z.add_lor_land (a * 2 ^ 10) y) as H. lia.
Qed.

Lemma u_escape_scan (n : Z) (rest : pystr) :
  0 <= n < 65536 ->
  exists h1 h2 h3 h4,
    u_escape n ++ rest = BACKSLASH :: ch "u" :: h1 :: h2 :: h3 :: h4 :: rest /\
    hex4_val h1 h2 h3 h4 = Some n.
Proof.
  intros Hn. unfold u_escape, hex_lower.
  do 4 eexists. split; [reflexivity|].
  unfold hex4_val. rewrite !Z.shiftr_div_pow2 by lia.
  rewrite !hex_val_digit by (apply Z.mod_pos_bound; lia).
  f_equal. change (2 ^ 12) with 4096. change (2 ^ 8) with 256.
  change (2 ^ 4) with 16. Z.div_mod_to_equations. lia.
Qed.

Lemma surrogate_pair (c : Z) :
  65536 <= c <= 1114111 ->
  let n := c - 65536 in
  let hi := Z.lor 55296 (Z.land (Z.shiftr n 10) 1023) in
  let lo := Z.lor 56320 (Z.land n 1023) in
  55296 <= hi <= 56319 /\ 56320 <= lo <= 57343 /\
  join_surrogates hi lo = c.
Proof.
  intros Hc n hi lo. subst hi lo.
  change 1023 with (Z.ones 10). rewrite !Z.land_ones by lia.
  rewrite Z.shiftr_div_pow2 by lia.
  change 55296 with (54 * 2 ^ 10). change 56320 with (55 * 2 ^ 10).
  rewrite !lor_high_low by (apply Z.mod_pos_bound; lia).
  unfold join_surrogates. change (2 ^ 10) with 1024. subst n.
  Z.div_mod_to_equations. lia.
Qed.

Lemma scanstring_escape_char (c : Z) (rest : pystr) :
  scalar_value c ->
  scanstring (escape_char c ++ rest)
  = match scanstring rest with
    | Some (str, r) => Some (c :: str, r)
    | None => None
    end.
Proof.
  intros [Hr Hs]. unfold escape_char.
  destruct (c =? DQUOTE) eqn:E1;
    [apply Z.eqb_eq in E1; subst c; reflexivity|].
  destruct (c =? BACKSLASH) eqn:E2;
    [apply Z.eqb_eq in E2; subst c; reflexivity|].
  destruct (c =? 10) eqn:E3; [apply Z.eqb_eq in E3; subst c; reflexivity|].
  destruct (c =? 13) eqn:E4; [apply Z.eqb_eq in E4; subst c; reflexivity|].
  destruct (c =? 9) eqn:E5; [apply Z.eqb_eq in E5; subst c; reflexivity|].
  destruct (c =? 12) eqn:E6; [apply Z.eqb_eq in E6; subst c; reflexivity|].
  destruct (c =? 8) eqn:E7; [apply Z.eqb_eq in E7; subst c; reflexivity|].
  destruct (in_range 32 c 126) eqn:E8.
  { cbn [Datatypes.app scanstring]. rewrite E1, E2.
    apply in_range_spec in E8.
    replace (c <? 32) with false by (symmetry; apply Z.ltb_ge; lia).
    reflexivity. }
  destruct (c <? 65536) eqn:E9.
  - apply Z.ltb_lt in E9.
    destruct (u_escape_scan c rest) as (h1 & h2 & h3 & h4 & -> & Hv); [lia|].
    cbn [scanstring]. change (BACKSLASH =? DQUOTE) with false.
    change (BACKSLASH =? BACKSLASH) with true.
    change (ch "u" =? ch "u") with true. cbv iota. rewrite Hv.
    unfold is_high_surrogate. rewrite in_range_false by lia. reflexivity.
  - apply Z.ltb_ge in E9.
    destruct (surrogate_pair c) as (Hhi & Hlo & Hjoin); [lia|].
    cbv zeta in Hhi, Hlo, Hjoin |- *.
    set (hi := Z.lor 55296 _) in *. set (lo := Z.lor 56320 _) in *.
    rewrite <- app_assoc.
    destruct (u_escape_scan lo rest) as (l1 & l2 & l3 & l4 & -> & Hvl); [lia|].
    destruct (u_escape_scan hi
                (BACKSLASH :: ch "u" :: l1 :: l2 :: l3 :: l4 :: rest))
      as (h1 & h2 & h3 & h4 & -> & Hvh); [lia|].
    cbn [scanstring]. change (BACKSLASH =? DQUOTE) with false.
    change (BACKSLASH =? BACKSLASH) with true.
    change (ch "u" =? ch "u") with true. cbv iota. rewrite Hvh.
    unfold is_high_surrogate. rewrite in_range_true by lia.
    cbn [andb]. rewrite Hvl.
    unfold is_low_surrogate. rewrite in_range_true by lia.
    rewrite Hjoin. reflexivity.
Qed.

Lemma scanstring_encoded (s : pystr) (rest : pystr) :
  utf8_text s ->
  scanstring (flat_map escape_char s ++ DQUOTE :: rest) = Some (s, rest).
Proof.
  induction 1 as [|c s Hc _ IH]; [reflexivity|].
  cbn [flat_map]. rewrite <- app_assoc.
  rewrite scanstring_escape_char, IH by assumption. reflexivity.
Qed.

(** X12: the string layer of JSON is a round trip.  For every text of
    Unicode scalar values, [json.loads] of its encoding as a JSON string
    (escapes, [\uXXXX] and surrogate pairs included) is the text
    itself: the extra layer a response is wrapped in loses nothing. *)
Theorem json_loads_encode_basestring (s : pystr) :
  utf8_text s ->
  json_loads (JStr (encode_basestring_ascii s)) = Ok (JStr s).
Proof.
  intros Hs. unfold json_loads, encode_basestring_ascii.
  cbn [Datatypes.app startswith skip_ws].
  change (65279 =? DQUOTE) with false. cbn [andb].
  change (is_json_ws DQUOTE) with false. cbv iota.
  rewrite Nat.add_comm. cbn [Nat.add scan_once].
  change (DQUOTE =? DQUOTE) with true. cbv iota.
  rewrite scanstring_encoded by assumption. reflexivity.
Qed.

Lemma json_loads_encode_basestring_witness :
  utf8_text [34; 92; 10; 233; 8364; 128512] /\
  json_loads (JStr (encode_basestring_ascii [34; 92; 10; 233; 8364; 128512]))
  = Ok (JStr [34; 92; 10; 233; 8364; 128512]).
Proof.
  assert (H : utf8_text [34; 92; 10; 233; 8364; 128512])
    by (repeat constructor; lia).
  split; [exact H | exact (json_loads_encode_basestring _ H)].
Defined.

(** ** json.loads builds proper dictionaries *)

Lemma dict_set_key_in (k k' : pystr) (v : json) (d : pydict) :
  existsb (pystr_eqb k') (map fst (dict_set k v d)) = true ->
  existsb (pystr_eqb k') (map fst d) = true \/ k' = k.
Proof.
  induction d as [|[k0 v0] d IH]; cbn [dict_set map fst existsb].
  - rewrite orb_false_r. intros H. right. apply pystr_eqb_eq. exact H.
  - destruct (pystr_eqb k0 k); cbn [map fst existsb]; [auto|].
    rewrite !orb_true_iff. intros [H | H]; [auto|].
    destruct (IH H); auto.
Qed.

Lemma dict_set_distinct (k : pystr) (v : json) (d : pydict) :
  distinct (map fst d) = true -> distinct (map fst (dict_set k v d)) = true.
Proof.
  induction d as [|[k0 v0] d IH]; [reflexivity|].
  cbn [dict_set map fst distinct]. intros H.
  apply andb_true_iff in H as [Hno Hd].
  destruct (pystr_eqb k0 k) eqn:E; cbn [map fst distinct].
  - rewrite Hno, Hd. reflexivity.
  - rewrite (IH Hd), andb_true_r. apply negb_true_iff.
    destruct (existsb (pystr_eqb k0) (map fst (dict_set k v d))) eqn:Ex;
      [|reflexivity].
    apply dict_set_key_in in Ex as [Ex | ->].
    + rewrite Ex in Hno. discriminate.
    + rewrite pystr_eqb_refl in E. discriminate.
Qed.

Lemma dict_set_values (P : pystr * json -> bool) (k : pystr) (v : json)
    (d : pydict) :
  (forall k1 k2, P (k1, v) = P (k2, v)) ->
  P (k, v) = true -> forallb P d = true -> forallb P (dict_set k v d) = true.
Proof.
  intros Hk Hv. induction d as [|[k0 v0] d IH]; cbn [dict_set forallb].
  - intros _. rewrite Hv. reflexivity.
  - intros H. apply andb_true_iff in H as [H0 Hd].
    destruct (pystr_eqb k0 k); cbn [forallb].
    + rewrite (Hk k0 k), Hv, Hd. reflexivity.
    + rewrite H0, (IH Hd). reflexivity.
Qed.

Lemma dict_set_keys_unique (k : pystr) (v : json) (d : pydict) :
  keys_unique v = true -> keys_unique (JDict d) = true ->
  keys_unique (JDict (dict_set k v d)) = true.
Proof.
  cbn [keys_unique]. intros Hv H. apply andb_true_iff in H as [Hd Hall].
  rewrite dict_set_distinct by assumption.
  rewrite dict_set_values; auto.
Qed.

Lemma match_number_scalar (s : pystr) (v : json) (rest : pystr) :
  match_number s = Some (v, rest) -> keys_unique v = true.
Proof.
  intros H. unfold match_number in H.
  repeat (break_match_in_hyps; try discriminate; inject_pairs; subst);
    reflexivity.
Qed.

Lemma scan_keys_unique (fuel : nat) :
  (forall s v r, scan_once fuel s = Ok (v, r) -> keys_unique v = true) /\
  (forall s acc v r,
     keys_unique (JDict acc) = true ->
     parse_members fuel s acc = Ok (v, r) -> keys_unique v = true) /\
  (forall s acc v r,
     forallb keys_unique acc = true ->
     parse_items fuel s acc = Ok (v, r) -> keys_unique v = true).
Proof.
  induction fuel as [|f (IHs & IHm & IHi)];
    [repeat split; intros; discriminate|].
  split; [|split].
  - intros s v r H. destruct s as [|c s']; [discriminate|].
    cbn [scan_once] in H.
    destruct (c =? DQUOTE).
    { destruct (scanstring s') as [[str rest]|]; [|discriminate].
      injection H as <- _. reflexivity. }
    destruct (c =? ch "{").
    { destruct (skip_ws s') as [|c' r']; [discriminate|].
      destruct (c' =? ch "}"); [injection H as <- _; reflexivity|].
      apply (IHm _ [] _ _ eq_refl H). }
    destruct (c =? ch "[").
    { destruct (skip_ws s') as [|c' r']; [discriminate|].
      destruct (c' =? ch "]"); [injection H as <- _; reflexivity|].
      apply (IHi _ [] _ _ eq_refl H). }
    repeat match type of H with
           | (if ?b then _ else _) = _ =>
               destruct b; [injection H as <- _; reflexivity|]
           end.
    destruct (match_number (c :: s')) as [[v' r']|] eqn:E; [|discriminate].
    injection H as <- _. apply (match_number_scalar _ _ _ E).
  - intros s acc v r Hacc H. destruct s as [|q s']; [discriminate|].
    cbn [parse_members] in H.
    destruct (q =? DQUOTE); [|discriminate].
    destruct (scanstring s') as [[key r1]|]; [|discriminate].
    destruct (skip_ws r1) as [|colon r2]; [discriminate|].
    destruct (colon =? ch ":"); [|discriminate].
    destruct (scan_once f (skip_ws r2)) as [[x r3]|e] eqn:E; [|discriminate].
    apply IHs in E.
    pose proof (dict_set_keys_unique key x acc E Hacc) as Hacc'.
    destruct (skip_ws r3) as [|d0 r4]; [discriminate|].
    destruct (d0 =? ch "}"); [injection H as <- _; exact Hacc'|].
    destruct (d0 =? ch ","); [|discriminate].
    apply (IHm _ _ _ _ Hacc' H).
  - intros s acc v r Hacc H. cbn [parse_items] in H.
    destruct (scan_once f s) as [[x r1]|e] eqn:E; [|discriminate].
    apply IHs in E.
    assert (Hacc' : forallb keys_unique (acc ++ [x]) = true).
    { rewrite forallb_app, Hacc. cbn. rewrite E. reflexivity. }
    destruct (skip_ws r1) as [|d0 r2]; [discriminate|].
    destruct (d0 =? ch "]"); [injection H as <- _; exact Hacc'|].
    destruct (d0 =? ch ","); [|discriminate].
    apply (IHi _ _ _ _ Hacc' H).
Qed.

(** X13: what [json.loads] returns is a proper Python value: no object
    in it, at any depth, has a key twice.  A key repeated in the text
    keeps its first place and its last value, so every lookup the
    report makes is unambiguous. *)
Theorem json_loads_keys_unique (x v : json) :
  json_loads x = Ok v -> keys_unique v = true.
Proof.
  destruct x; try discriminate. unfold json_loads.
  destruct (startswith [65279] s); [discriminate|].
  destruct (scan_once (2 * length s + 2) (skip_ws s)) as [[obj rest]|e] eqn:E;
    [|discriminate].
  cbn [rbind]. destruct (skip_ws rest); [|discriminate].
  intros [= <-]. exact (proj1 (scan_keys_unique _) _ _ _ E).
Qed.

Lemma json_loads_keys_unique_witness :
  json_loads (JStr (pyq "{'a':1,'b':{'c':2,'c':3},'a':4}"))
  = Ok (JDict [(py "a", JInt 4); (py "b", JDict [(py "c", JInt 3)])]) /\
  keys_unique (JDict [(py "a", JInt 4); (py "b", JDict [(py "c", JInt 3)])])
  = true.
Proof.
  assert (H : json_loads (JStr (pyq "{'a':1,'b':{'c':2,'c':3},'a':4}"))
              = Ok (JDict [(py "a", JInt 4);
                           (py "b", JDict [(py "c", JInt 3)])]))
    by reflexivity.
  split; [exact H | exact (json_loads_keys_unique _ _ H)].
Defined.

(** ** The callback section *)

Section Callback.

Variable rt : PyRuntime.

(** X14: what the callback section does once a notify vector is there.
    A missing or empty payload prints nothing; a string payload prints
    the banner and the decoded text and cannot fail; a payload that is
    not a string stops the whole report with an [AttributeError], after
    the banner has already been printed. *)
Theorem report_callback_cases (value notify_vec : json) (out : list pystr) :
  extract_nested_value value (py "notify.value.vec") = Ok notify_vec ->
  py_truthy rt notify_vec = true ->
  (forall x,
     extract_nested_value notify_vec (py "value.0.0") = Ok x ->
     py_truthy rt x = false ->
     report_callback rt value out = (Ok tt, out)) /\
  (forall h,
     extract_nested_value notify_vec (py "value.0.0") = Ok (JStr h) ->
     h <> [] ->
     exists text,
       decode_hex (JStr h) = Ok text /\
       report_callback rt value out
       = (Ok tt, out ++ [banner "===== Callback Details =====";
                         py "Callback: " ++ text])) /\
  (forall x,
     extract_nested_value notify_vec (py "value.0.0") = Ok x ->
     py_truthy rt x = true ->
     (forall s, x <> JStr s) ->
     report_callback rt value out
     = (Raise AttributeError,
        out ++ [banner "===== Callback Details ====="])).
Proof.
  intros Hn Ht. cbn in Hn. repeat split.
  - intros x Hx Hf. io_unfold. cbn. rewrite Hn. cbn. rewrite Ht.
    cbn in Hx. rewrite Hx. cbn. rewrite Hf. reflexivity.
  - intros h Hx Hh.
    assert (Hd : exists text, decode_hex (JStr h) = Ok text).
    { unfold decode_hex.
      destruct (bytes_fromhex (strip_0x h)) as [bs|]; cbn;
        [destruct (utf8_decode bs); cbn|]; eauto. }
    destruct Hd as [text Hd]. exists text. split; [exact Hd|].
    io_unfold. cbn. rewrite Hn. cbn. rewrite Ht.
    cbn in Hx. rewrite Hx. cbn.
    destruct h as [|c h]; [congruence|]. rewrite Hd. cbn.
    rewrite <- app_assoc. reflexivity.
  - intros x Hx Hxt Hns. io_unfold. cbn. rewrite Hn. cbn. rewrite Ht.
    cbn in Hx. rewrite Hx. cbn. rewrite Hxt.
    assert (Hd : decode_hex x = Raise AttributeError).
    { destruct x; try reflexivity. destruct (Hns s eq_refl). }
    rewrite Hd. reflexivity.
Qed.

End Callback.

Lemma report_callback_cases_witness :
  let vec := JDict [(py "value",
                     JDict [(py "0", JDict [(py "0", JInt 7)])])] in
  let value := JDict [(py "notify", JDict [(py "value",
                                            JDict [(py "vec", vec)])])] in
  extract_nested_value value (py "notify.value.vec") = Ok vec /\
  report_callback sample_runtime value []
  = (Raise AttributeError, [banner "===== Callback Details ====="]).
Proof.
  intros vec value.
  assert (H : extract_nested_value value (py "notify.value.vec") = Ok vec)
    by reflexivity.
  split; [exact H|].
  refine (proj2 (proj2 (report_callback_cases sample_runtime value vec []
                          H eq_refl)) (JInt 7) eq_refl eq_refl _).
  intros s; discriminate.
Defined.
